(** * Fever order sync: nested-to-flat projection and search-job polling

    A shallow embedding of [context/reference/gumloop-fever-sync.py] and the
    properties of its field accessor, partition parsing, polling loop and
    order flattening.

    Python values are the values a JSON parser hands to the script.  Strings
    are sequences of code points below 256; JSON numbers are Python ints
    (fractional numbers, whose text form is floating-point formatting, are
    not part of the value type). *)

From Stdlib Require Import ZArith Ascii String List Lia.
From stdpp Require Import base option list strings pretty gmap sorting.

Local Open Scope string_scope.
Local Open Scope Z_scope.
Local Open Scope list_scope.

(** ** Python values, exceptions and results *)

#[warnings="-register-all"]
Inductive json : Type :=
| JNull
| JBool (b : bool)
| JInt (n : Z)
| JStr (s : string)
| JList (l : list json)
| JDict (kvs : list (string * json)).

Inductive exn : Type :=
| AttributeError
| TypeError
| ValueError
| KeyError
| RecursionError
| RequestException.

Inductive result (A : Type) : Type :=
| Ok (a : A)
| Raise (e : exn).
Arguments Ok {A} a.
Arguments Raise {A} e.

Definition rbind {A B} (r : result A) (k : A -> result B) : result B :=
  match r with
  | Ok a => k a
  | Raise e => Raise e
  end.

Declare Scope result_scope.
Delimit Scope result_scope with result.
Notation "x <- r ;; k" := (rbind r (fun x => k))
  (at level 100, r at next level, right associativity) : result_scope.
Local Open Scope result_scope.

Fixpoint rmapM {A B} (f : A -> result B) (l : list A) : result (list B) :=
  match l with
  | [] => Ok []
  | a :: l' => b <- f a ;; bs <- rmapM f l' ;; Ok (b :: bs)
  end.

Definition is_ok {A} (r : result A) : Prop := exists a, r = Ok a.

(** ** Builtins of the interpreter used by the script *)

(** [bool(v)]: the truth value tested by [if v], [not v] and [v or w]. *)
Definition truthy (v : json) : bool :=
  match v with
  | JNull => false
  | JBool b => b
  | JInt n => negb (n =? 0)
  | JStr s => negb (String.eqb s "")
  | JList l => match l with [] => false | _ => true end
  | JDict kvs => match kvs with [] => false | _ => true end
  end.

(** [a or b] *)
Definition py_or (a b : json) : json := if truthy a then a else b.

(** [isinstance(v, dict)] *)
Definition isinstance_dict (v : json) : bool :=
  match v with JDict _ => true | _ => false end.

(** The binding of [k] in a dict's items (keys of a dict are distinct). *)
Fixpoint assoc (k : string) (kvs : list (string * json)) : option json :=
  match kvs with
  | [] => None
  | (k', v) :: kvs' => if String.eqb k k' then Some v else assoc k kvs'
  end.

(** [v.get(k, default)]: only a dict has the method. *)
Definition dict_get (v : json) (k : string) (default : json) : result json :=
  match v with
  | JDict kvs => Ok (match assoc k kvs with Some x => x | None => default end)
  | _ => Raise AttributeError
  end.

(** [v in (None, "")] *)
Definition in_none_empty (v : json) : bool :=
  match v with
  | JNull => true
  | JStr s => String.eqb s ""
  | _ => false
  end.

(** Iteration ([for x in v], [list += v]): a list yields its elements, a
    string its characters, a dict its keys; other values are not iterable. *)
Fixpoint chars (s : string) : list json :=
  match s with
  | EmptyString => []
  | String c s' => JStr (String c EmptyString) :: chars s'
  end.

Definition py_iter (v : json) : result (list json) :=
  match v with
  | JList l => Ok l
  | JStr s => Ok (chars s)
  | JDict kvs => Ok (map (fun kv => JStr (fst kv)) kvs)
  | _ => Raise TypeError
  end.

(** *** Strings: [strip], [isdigit], [split], [int] *)

Definition code (c : ascii) : N := N_of_ascii c.

(** White space as [str.strip()] sees it. *)
Definition is_space (c : ascii) : bool :=
  let n := code c in
  (((9 <=? n) && (n <=? 13)) || ((28 <=? n) && (n <=? 32))
   || (n =? 133) || (n =? 160))%N.

(** White space as [int()] skips it: the separators 28 to 31 are not. *)
Definition is_int_space (c : ascii) : bool :=
  let n := code c in
  (((9 <=? n) && (n <=? 13)) || (n =? 32) || (n =? 133) || (n =? 160))%N.

(** Decimal digits, the only ones [int()] reads. *)
Definition is_decimal (c : ascii) : bool :=
  let n := code c in ((48 <=? n) && (n <=? 57))%N.

(** [str.isdigit()] also accepts the superscript digits. *)
Definition is_digit_char (c : ascii) : bool :=
  let n := code c in
  (is_decimal c || (n =? 178) || (n =? 179) || (n =? 185))%N.

Fixpoint lstrip_by (p : ascii -> bool) (s : string) : string :=
  match s with
  | EmptyString => EmptyString
  | String c s' => if p c then lstrip_by p s' else s
  end.

Fixpoint rstrip_by (p : ascii -> bool) (s : string) : string :=
  match s with
  | EmptyString => EmptyString
  | String c s' =>
      match rstrip_by p s' with
      | EmptyString => if p c then EmptyString else String c EmptyString
      | r => String c r
      end
  end.

(** [s.strip()] *)
Definition strip (s : string) : string := rstrip_by is_space (lstrip_by is_space s).

Fixpoint all_chars (p : ascii -> bool) (s : string) : bool :=
  match s with
  | EmptyString => true
  | String c s' => p c && all_chars p s'
  end.

Definition isdigit (s : string) : bool :=
  negb (String.eqb s "") && all_chars is_digit_char s.

(** [s.split(sep)] for a one-character separator. *)
Fixpoint split (sep : ascii) (s : string) : list string :=
  match s with
  | EmptyString => [EmptyString]
  | String c s' =>
      if Ascii.eqb c sep then EmptyString :: split sep s'
      else match split sep s' with
           | [] => [String c EmptyString]
           | w :: ws => String c w :: ws
           end
  end.

(** Digits of an integer literal: decimal digits, single underscores
    allowed between two digits. [acc] is the value read so far and [us]
    tells whether the previous character was an underscore. *)
Fixpoint digits_value (s : string) (acc : Z) (us : bool) : option Z :=
  match s with
  | EmptyString => if us then None else Some acc
  | String c s' =>
      if is_decimal c then
        digits_value s' (10 * acc + (Z.of_N (code c) - 48)) false
      else if Ascii.eqb c "_" then
        (if us then None else digits_value s' acc true)
      else None
  end.

Definition unsigned_value (s : string) : option Z :=
  match s with
  | EmptyString => None
  | String c _ => if is_decimal c then digits_value s 0 false else None
  end.

(** [int(s)] for a string, base 10. *)
Definition int_of_str (s : string) : result Z :=
  let t := rstrip_by is_int_space (lstrip_by is_int_space s) in
  let r := match t with
           | String c t' =>
               if Ascii.eqb c "-" then option_map Z.opp (unsigned_value t')
               else if Ascii.eqb c "+" then unsigned_value t'
               else unsigned_value t
           | EmptyString => None
           end in
  match r with
  | Some n => Ok n
  | None => Raise ValueError
  end.

(** [int(v)] *)
Definition py_int (v : json) : result Z :=
  match v with
  | JInt n => Ok n
  | JBool b => Ok (if b then 1 else 0)
  | JStr s => int_of_str s
  | JNull | JList _ | JDict _ => Raise TypeError
  end.

(** *** Reference text of [str] and [json.dumps]

    The text the two library functions produce for a value, for the
    properties that speak of the exact text. *)

Definition hex_digit (n : N) : ascii :=
  ascii_of_N (if (n <? 10)%N then 48 + n else 87 + n)%N.

Definition hex2 (c : ascii) : string :=
  String (hex_digit (code c / 16)) (String (hex_digit (code c mod 16)) "").

Definition dquote : ascii := ascii_of_N 34.

Fixpoint has_char (c : ascii) (s : string) : bool :=
  match s with
  | EmptyString => false
  | String c' s' => Ascii.eqb c c' || has_char c s'
  end.

(** Code points [repr] writes as themselves. *)
Definition is_printable (c : ascii) : bool :=
  let n := code c in
  (((32 <=? n) && (n <? 127)) || ((161 <=? n) && negb (n =? 173)))%N.

Definition repr_char (quote c : ascii) : string :=
  if Ascii.eqb c quote || Ascii.eqb c "\" then String "\" (String c "")
  else if (code c =? 9)%N then "\t"
  else if (code c =? 10)%N then "\n"
  else if (code c =? 13)%N then "\r"
  else if is_printable c then String c ""
  else "\x" +:+ hex2 c.

Fixpoint repr_chars (quote : ascii) (s : string) : string :=
  match s with
  | EmptyString => ""
  | String c s' => repr_char quote c +:+ repr_chars quote s'
  end.

(** [repr(s)] of a string: single quotes unless the text has a single and
    no double quote. *)
Definition repr_str (s : string) : string :=
  let quote : ascii :=
    if has_char "'" s && negb (has_char dquote s) then dquote else "'"%char in
  String quote (repr_chars quote s) +:+ String quote "".

Fixpoint repr_text (v : json) : string :=
  match v with
  | JNull => "None"
  | JBool b => if b then "True" else "False"
  | JInt n => pretty n
  | JStr s => repr_str s
  | JList l => "[" +:+ String.concat ", " (map repr_text l) +:+ "]"
  | JDict kvs =>
      "{" +:+ String.concat ", "
               (map (fun '(k, x) => repr_str k +:+ ": " +:+ repr_text x) kvs)
          +:+ "}"
  end.

(** [str(v)]: a string is itself, any other value its [repr]. *)
Definition str_text (v : json) : string :=
  match v with
  | JStr s => s
  | _ => repr_text v
  end.

(** One character of a JSON string literal as [json.dumps] writes it
    (ASCII output, the default). *)
Definition dumps_char (c : ascii) : string :=
  let n := code c in
  if Ascii.eqb c dquote then String "\" (String dquote "")
  else if Ascii.eqb c "\" then "\\"
  else if (n =? 8)%N then "\b"
  else if (n =? 9)%N then "\t"
  else if (n =? 10)%N then "\n"
  else if (n =? 12)%N then "\f"
  else if (n =? 13)%N then "\r"
  else if ((32 <=? n) && (n <? 127))%N then String c ""
  else "\u00" +:+ hex2 c.

Fixpoint dumps_chars (s : string) : string :=
  match s with
  | EmptyString => ""
  | String c s' => dumps_char c +:+ dumps_chars s'
  end.

Definition dumps_str (s : string) : string :=
  String dquote (dumps_chars s) +:+ String dquote "".

(** [json.dumps(v)] with its default separators [", "] and [": "]. *)
Fixpoint dumps_text (v : json) : string :=
  match v with
  | JNull => "null"
  | JBool b => if b then "true" else "false"
  | JInt n => pretty n
  | JStr s => dumps_str s
  | JList l => "[" +:+ String.concat ", " (map dumps_text l) +:+ "]"
  | JDict kvs =>
      "{" +:+ String.concat ", "
               (map (fun '(k, x) => dumps_str k +:+ ": " +:+ dumps_text x) kvs)
          +:+ "}"
  end.

(** The compact form, without spaces after the separators. *)
Fixpoint compact_text (v : json) : string :=
  match v with
  | JNull => "null"
  | JBool b => if b then "true" else "false"
  | JInt n => pretty n
  | JStr s => dumps_str s
  | JList l => "[" +:+ String.concat "," (map compact_text l) +:+ "]"
  | JDict kvs =>
      "{" +:+ String.concat ","
               (map (fun '(k, x) => dumps_str k +:+ ":" +:+ compact_text x) kvs)
          +:+ "}"
  end.

Definition ref_str (v : json) : result string := Ok (str_text v).
Definition ref_dumps (v : json) : result string := Ok (dumps_text v).

(** Nesting depth of a value, and a [str] that gives up beyond a depth the
    way the interpreter's recursion guard does. *)
Fixpoint depth (v : json) : nat :=
  match v with
  | JList l => S (foldr (fun x d => Nat.max (depth x) d) 0%nat l)
  | JDict kvs => S (foldr (fun '(_, x) d => Nat.max (depth x) d) 0%nat kvs)
  | _ => 0%nat
  end.

Definition guarded_str (limit : nat) (v : json) : result string :=
  if (depth v <=? limit)%nat then Ok (str_text v) else Raise RecursionError.

(** ** Configuration, network and the script's effects *)

(** The values the script fixes at its top. *)
Record config : Type := {
  BEARER : string;
  PLAN_IDS : string;
  DATE_FIELD : string;
  DATE_FROM : string;
  DATE_TO : string
}.

Definition hard_coded : config := {|
  BEARER := "";
  PLAN_IDS := "420002,474974,416569,480359,474902,433336";
  DATE_FIELD := "";
  DATE_FROM := "";
  DATE_TO := ""
|}.

(** What the remote API answers.  Each field is the outcome of one request:
    sending it, the status check where the script makes one, and decoding
    the body. *)
Record network : Type := {
  token_response : result json;
  search_response : json -> result json;
  poll_response : json -> nat -> result json;
  page_response : json -> Z -> result json
}.

Inductive request : Type :=
| PostToken
| PostSearch (body : json)
| GetPoll (sid : json)
| GetPage (sid : json) (page : Z).

Inductive message : Type :=
| LoggingIn
| AuthFailedNoToken
| AuthError (e : exn)
| NoValidPlanIds
| NoSearchId
| SearchId (sid : json)
| SearchInitError (e : exn)
| TimeoutWaiting
| PollingError (e : exn)
| Fetched (n : nat)
| PartitionFetchError (e : exn)
| FlattenError (e : exn).

Inductive event : Type :=
| LogInfo (m : message)
| LogError (m : message)
| Http (r : request)
| Sleep (secs : Z).

(** [variable_names], the output schema. *)
Definition variable_names : list string :=
  [ "order_id"; "parent_order_id"; "order_created_date_utc";
    "order_updated_date_utc"; "surcharge"; "currency"; "purchase_channel";
    "payment_method"; "billing_zip_code"; "assigned_seats"; "buyer_id";
    "buyer_email"; "buyer_first_name"; "buyer_last_name";
    "buyer_date_of_birthday"; "buyer_language";
    "buyer_marketing_preference"; "purchase_city"; "purchase_country_code";
    "purchase_region_code"; "purchase_postal_code"; "purchase_quality";
    "partner_id"; "partner_name"; "plan_id"; "plan_name"; "coupon_name";
    "coupon_code"; "business_id"; "business_name"; "booking_questions";
    "item_id"; "item_status"; "item_created_date_utc";
    "item_modified_date_utc"; "item_purchase_date_utc";
    "item_cancellation_date_utc"; "item_cancellation_type";
    "item_discount"; "item_surcharge"; "item_unitary_price";
    "item_is_invite"; "item_rating_value"; "item_rating_comment";
    "owner_id"; "owner_email"; "owner_first_name"; "owner_last_name";
    "owner_date_of_birthday"; "owner_language";
    "owner_marketing_preference"; "plan_code_id"; "plan_code_barcode";
    "plan_code_created_date_utc"; "plan_code_modified_date_utc";
    "plan_code_redeemed_date_utc"; "plan_code_is_cancelled";
    "plan_code_is_validated"; "session_id"; "session_name";
    "session_start_date_utc"; "session_end_date_utc";
    "session_first_purchasable_date_utc"; "session_is_addon";
    "session_is_shop_product"; "session_is_wait_list"; "venue_name";
    "venue_city"; "venue_country"; "venue_timezone" ].

(** The per-column lists [outputs] and the effects so far. *)
Record world : Type := {
  trace : list event;
  outputs : gmap string (list string)
}.

(** The tuple of columns [main] returns. *)
Definition returned : Type := list (list string).

(** A statement ends normally, raises, or returns from [main]. *)
Inductive outcome (A : Type) : Type :=
| Val (a : A)
| Exc (e : exn)
| Ret (r : returned).
Arguments Val {A} a.
Arguments Exc {A} e.
Arguments Ret {A} r.

Definition M (A : Type) : Type := world -> outcome A * world.

Definition ret {A} (a : A) : M A := fun w => (Val a, w).

Definition bind {A B} (m : M A) (k : A -> M B) : M B := fun w =>
  match m w with
  | (Val a, w') => k a w'
  | (Exc e, w') => (Exc e, w')
  | (Ret r, w') => (Ret r, w')
  end.

Notation "x <~ m ;; k" := (bind m (fun x => k))
  (at level 100, m at next level, right associativity).
Notation "m >> k" := (bind m (fun _ => k))
  (at level 100, right associativity).

(** A pure computation inside a statement. *)
Definition lift {A} (r : result A) : M A := fun w =>
  match r with
  | Ok a => (Val a, w)
  | Raise e => (Exc e, w)
  end.

(** [try: m except Exception as e: h e] *)
Definition try_ {A} (m : M A) (h : exn -> M A) : M A := fun w =>
  match m w with
  | (Exc e, w') => h e w'
  | r => r
  end.

Definition emit (ev : event) : M unit := fun w =>
  (Val tt, {| trace := trace w ++ [ev]; outputs := outputs w |}).

Definition log_info (m : message) : M unit := emit (LogInfo m).
Definition log_error (m : message) : M unit := emit (LogError m).
Definition sleep (secs : Z) : M unit := emit (Sleep secs).

Definition http (r : request) (answer : result json) : M json :=
  emit (Http r) >> lift answer.

Fixpoint for_each {A} (body : A -> M unit) (l : list A) : M unit :=
  match l with
  | [] => ret tt
  | a :: l' => body a >> for_each body l'
  end.

(** [outputs = {k: [] for k in variable_names}] *)
Definition empty_outputs : gmap string (list string) :=
  list_to_map (map (fun k => (k, @nil string)) variable_names).

Definition start : world := {| trace := []; outputs := empty_outputs |}.

(** [outputs[name]] *)
Definition column (t : gmap string (list string)) (name : string)
  : result (list string) :=
  match t !! name with
  | Some c => Ok c
  | None => Raise KeyError
  end.

(** [[outputs[name] for name in variable_names]] unpacked into the 70
    names of the return statement. *)
Definition unpack (t : gmap string (list string)) : result returned :=
  cols <- rmapM (column t) variable_names ;;
  if (length cols =? 70)%nat then Ok cols else Raise ValueError.

Definition _unpack_and_return {A} : M A := fun w =>
  match unpack (outputs w) with
  | Ok cols => (Ret cols, w)
  | Raise e => (Exc e, w)
  end.

(** [outputs[col].append(cell)]: the column is looked up, the argument
    evaluated, the cell appended. *)
Definition append_cell (col : string) (cell : result string) : M unit :=
  fun w =>
  match outputs w !! col with
  | None => (Exc KeyError, w)
  | Some c =>
      match cell with
      | Raise e => (Exc e, w)
      | Ok s => (Val tt, {| trace := trace w;
                            outputs := <[col := c ++ [s]]> (outputs w) |})
      end
  end.

Fixpoint run_appends (cells : list (string * result string)) : M unit :=
  match cells with
  | [] => ret tt
  | (col, cell) :: rest => append_cell col cell >> run_appends rest
  end.

(** ** The script *)

Section Script.

(** [str] and [json.dumps] are the interpreter's; they can raise (on deep
    nesting, for want of memory). *)
Variable py_str : json -> result string.
Variable json_dumps : json -> result string.

(** Safe nested getter returning the empty string for missing, [None] and
    empty values. *)
Fixpoint _g (cur : json) (ks : list string) : result string :=
  match ks with
  | [] => if in_none_empty cur then Ok "" else py_str cur
  | k :: ks' =>
      if negb (isinstance_dict cur) then Ok ""
      else (next <- dict_get cur k JNull ;; _g next ks')
  end.

(** [bq = o.get("booking_questions")] and the cell made of it. *)
Definition booking_questions_cell (o : json) : result string :=
  bq <- dict_get o "booking_questions" JNull ;;
  if negb (in_none_empty bq) then json_dumps bq else Ok "".

(** The appends of one pass through the inner loop, in order. *)
Definition row_cells (o it : json) : list (string * result string) :=
  [ ("order_id", _g o ["id"]);
    ("parent_order_id", _g o ["parent_order_id"]);
    ("order_created_date_utc", _g o ["created_date_utc"]);
    ("order_updated_date_utc", _g o ["updated_date_utc"]);
    ("surcharge", _g o ["surcharge"]);
    ("currency", _g o ["currency"]);
    ("purchase_channel", _g o ["purchase_channel"]);
    ("payment_method", _g o ["payment_method"]);
    ("billing_zip_code", _g o ["billing_zip_code"]);
    ("assigned_seats", _g o ["assigned_seats"]);
    ("buyer_id", _g o ["buyer"; "id"]);
    ("buyer_email", _g o ["buyer"; "email"]);
    ("buyer_first_name", _g o ["buyer"; "first_name"]);
    ("buyer_last_name", _g o ["buyer"; "last_name"]);
    ("buyer_date_of_birthday", _g o ["buyer"; "date_of_birthday"]);
    ("buyer_language", _g o ["buyer"; "language"]);
    ("buyer_marketing_preference", _g o ["buyer"; "marketing_preference"]);
    ("purchase_city", _g o ["purchase_location_source"; "city_name"]);
    ("purchase_country_code", _g o ["purchase_location_source"; "country_code"]);
    ("purchase_region_code", _g o ["purchase_location_source"; "region_code"]);
    ("purchase_postal_code", _g o ["purchase_location_source"; "postal_code"]);
    ("purchase_quality", _g o ["purchase_location_source"; "quality"]);
    ("partner_id", _g o ["partner"; "id"]);
    ("partner_name", _g o ["partner"; "name"]);
    ("plan_id", _g o ["plan"; "id"]);
    ("plan_name", _g o ["plan"; "name"]);
    ("coupon_name", _g o ["coupon"; "name"]);
    ("coupon_code", _g o ["coupon"; "code"]);
    ("business_id", _g o ["business"; "id"]);
    ("business_name", _g o ["business"; "name"]);
    ("booking_questions", booking_questions_cell o);
    ("item_id", _g it ["id"]);
    ("item_status", _g it ["status"]);
    ("item_created_date_utc", _g it ["created_date_utc"]);
    ("item_modified_date_utc", _g it ["modified_date_utc"]);
    ("item_purchase_date_utc", _g it ["purchase_date_utc"]);
    ("item_cancellation_date_utc", _g it ["cancellation_date_utc"]);
    ("item_cancellation_type", _g it ["cancellation_type"]);
    ("item_discount", _g it ["discount"]);
    ("item_surcharge", _g it ["surcharge"]);
    ("item_unitary_price", _g it ["unitary_price"]);
    ("item_is_invite", _g it ["is_invite"]);
    ("item_rating_value", _g it ["rating_value"]);
    ("item_rating_comment", _g it ["rating_comment"]);
    ("owner_id", _g it ["owner"; "id"]);
    ("owner_email", _g it ["owner"; "email"]);
    ("owner_first_name", _g it ["owner"; "first_name"]);
    ("owner_last_name", _g it ["owner"; "last_name"]);
    ("owner_date_of_birthday", _g it ["owner"; "date_of_birthday"]);
    ("owner_language", _g it ["owner"; "language"]);
    ("owner_marketing_preference", _g it ["owner"; "marketing_preference"]);
    ("plan_code_id", _g it ["plan_code"; "id"]);
    ("plan_code_barcode", _g it ["plan_code"; "cd_barcode"]);
    ("plan_code_created_date_utc", _g it ["plan_code"; "created_date_utc"]);
    ("plan_code_modified_date_utc", _g it ["plan_code"; "modified_date_utc"]);
    ("plan_code_redeemed_date_utc", _g it ["plan_code"; "redeemed_date_utc"]);
    ("plan_code_is_cancelled", _g it ["plan_code"; "is_cancelled"]);
    ("plan_code_is_validated", _g it ["plan_code"; "is_validated"]);
    ("session_id", _g it ["session"; "id"]);
    ("session_name", _g it ["session"; "name"]);
    ("session_start_date_utc", _g it ["session"; "start_date_utc"]);
    ("session_end_date_utc", _g it ["session"; "end_date_utc"]);
    ("session_first_purchasable_date_utc", _g it ["session"; "first_purchasable_date_utc"]);
    ("session_is_addon", _g it ["session"; "is_addon"]);
    ("session_is_shop_product", _g it ["session"; "is_shop_product"]);
    ("session_is_wait_list", _g it ["session"; "is_wait_list"]);
    ("venue_name", _g it ["session"; "venue"; "name"]);
    ("venue_city", _g it ["session"; "venue"; "city"]);
    ("venue_country", _g it ["session"; "venue"; "country"]);
    ("venue_timezone", _g it ["session"; "venue"; "timezone"]) ].

Definition flatten_row (o it : json) : M unit := run_appends (row_cells o it).

(** [items = o.get("order_items") or [{}]] and the loop over it. *)
Definition order_items (o : json) : result (list json) :=
  v <- dict_get o "order_items" JNull ;;
  py_iter (py_or v (JList [JDict []])).

Definition flatten_order (o : json) : M unit :=
  items <~ lift (order_items o) ;;
  for_each (flatten_row o) items.

Definition flatten (orders : list json) : M unit :=
  for_each flatten_order orders.

(** *** Authentication *)

Definition auth (cfg : config) (net : network) : M json :=
  try_
    (token <~ (if negb (truthy (JStr (strip (BEARER cfg)))) then
                 log_info LoggingIn >>
                 (j <~ http PostToken (token_response net) ;;
                  lift (dict_get j "access_token" (JStr "")))
               else ret (JStr (strip (BEARER cfg)))) ;;
     if negb (truthy token) then
       log_error AuthFailedNoToken >> _unpack_and_return
     else
       (_ <~ lift (py_str token) ;; ret token))
    (fun e => log_error (AuthError e) >> _unpack_and_return).

(** *** Search submission *)

(** [[int(x) for x in PLAN_IDS.split(",") if x.strip().isdigit()]] *)
Definition parse_plan_ids (plan_ids : string) : result (list Z) :=
  rmapM int_of_str
    (List.filter (fun x => isdigit (strip x)) (split "," plan_ids)).

Definition optional_key (k v : string) : list (string * json) :=
  if truthy (JStr v) then [(k, JStr v)] else [].

Definition search_body (cfg : config) (ids : list Z) : json :=
  JDict ([("plan_ids", JList (map JInt ids))]
         ++ optional_key "date_field" (DATE_FIELD cfg)
         ++ optional_key "date_from" (DATE_FROM cfg)
         ++ optional_key "date_to" (DATE_TO cfg)).

Definition start_search (cfg : config) (net : network) : M json :=
  try_
    (ids <~ lift (parse_plan_ids (PLAN_IDS cfg)) ;;
     match ids with
     | [] => log_error NoValidPlanIds >> _unpack_and_return
     | _ =>
         let body := search_body cfg ids in
         j <~ http (PostSearch body) (search_response net body) ;;
         sid <~ lift (dict_get j "search_id" JNull) ;;
         if negb (truthy sid) then
           log_error NoSearchId >> _unpack_and_return
         else
           (_ <~ lift (py_str sid) ;; log_info (SearchId sid) >> ret sid)
     end)
    (fun e => log_error (SearchInitError e) >> _unpack_and_return).

(** *** Polling *)

(** The number of one [partition_info] entry. *)
Definition partition_number (p : json) : result Z :=
  if isinstance_dict p then
    (d4 <- dict_get p "number" (JInt 0) ;;
     d3 <- dict_get p "page" d4 ;;
     d2 <- dict_get p "partition" d3 ;;
     d1 <- dict_get p "partition_num" d2 ;;
     py_int d1)
  else py_int p.

(** [sorted(set(l))] *)
Definition sorted_set (l : list Z) : list Z :=
  merge_sort Z.le (elements (list_to_set l : gset Z)).

(** [sorted(set([p for p in parts if p >= 0])) or [0]] *)
Definition normalise_parts (parts : list Z) : list Z :=
  match sorted_set (List.filter (fun p => 0 <=? p) parts) with
  | [] => [0]
  | l => l
  end.

Definition resolve_partitions (pinfo : json) : result (list Z) :=
  entries <- py_iter pinfo ;;
  parts <- rmapM partition_number entries ;;
  Ok (normalise_parts parts).

(** [for _ in range(60)], with [n] passes left and [attempt] made so far;
    [None] when the loop ends without a [break]. *)
Fixpoint poll_loop (net : network) (sid : json) (n attempt : nat)
  : M (option (list Z)) :=
  match n with
  | O => ret None
  | S n' =>
      j <~ http (GetPoll sid) (poll_response net sid attempt) ;;
      pinfo <~ lift (dict_get j "partition_info" JNull) ;;
      if truthy pinfo then
        (parts <~ lift (resolve_partitions pinfo) ;; ret (Some parts))
      else
        sleep 2 >> poll_loop net sid n' (S attempt)
  end.

Definition poll (net : network) (sid : json) : M (list Z) :=
  try_
    (_ <~ lift (py_str sid) ;;
     parts <~ poll_loop net sid 60 0 ;;
     match parts with
     | Some (p :: ps) => ret (p :: ps)
     | _ => log_error TimeoutWaiting >> _unpack_and_return
     end)
    (fun e => log_error (PollingError e) >> _unpack_and_return).

(** *** Fetching the partitions *)

Fixpoint fetch_loop (net : network) (sid : json) (parts : list Z)
  (orders : list json) : M (list json) :=
  match parts with
  | [] => ret orders
  | p :: ps =>
      j <~ http (GetPage sid p) (page_response net sid p) ;;
      data <~ lift (dict_get j "data" (JList [])) ;;
      more <~ lift (py_iter data) ;;
      fetch_loop net sid ps (orders ++ more)
  end.

Definition fetch_all (net : network) (sid : json) (parts : list Z)
  : M (list json) :=
  try_
    (orders <~ fetch_loop net sid parts [] ;;
     _ <~ lift (py_str (JInt (Z.of_nat (length orders)))) ;;
     log_info (Fetched (length orders)) >> ret orders)
    (fun e => log_error (PartitionFetchError e) >> _unpack_and_return).

(** *** The whole run *)

Definition flatten_stage (orders : list json) : M unit :=
  try_ (flatten orders) (fun e => log_error (FlattenError e)).

Definition after_fetch (orders : list json) : M unit :=
  flatten_stage orders >> _unpack_and_return.

Definition after_search (net : network) (sid : json) : M unit :=
  parts <~ poll net sid ;;
  orders <~ fetch_all net sid parts ;;
  after_fetch orders.

Definition main (cfg : config) (net : network) : M unit :=
  _ <~ auth cfg net ;;
  sid <~ start_search cfg net ;;
  after_search net sid.

(** A call of [main]: the returned tuple or the exception that escapes,
    and the effects. *)
Definition call_main (cfg : config) (net : network)
  : result returned * list event :=
  match main cfg net start with
  | (Ret r, w) => (Ok r, trace w)
  | (Exc e, w) => (Raise e, trace w)
  | (Val _, w) => (Ok [], trace w)
  end.


(** ** Vocabulary of the properties *)

(** The value reached from [d] by the keys [ks], when every value on the
    way is a dict that has the next key. *)
Fixpoint follow (d : json) (ks : list string) : option json :=
  match ks with
  | [] => Some d
  | k :: ks' =>
      match d with
      | JDict kvs =>
          match assoc k kvs with
          | Some x => follow x ks'
          | None => None
          end
      | _ => None
      end
  end.

(** Every column of the schema is there, with [n] cells. *)
Definition aligned (n : nat) (t : gmap string (list string)) : Prop :=
  forall name, name ∈ variable_names ->
    exists c, t !! name = Some c /\ length c = n.

Definition has_columns (t : gmap string (list string)) : Prop :=
  forall name, name ∈ variable_names -> is_Some (t !! name).

(** The cells of a row before the first one that raises, what the row
    ends with, and the table after appending cells. *)
Fixpoint ok_prefix (cells : list (string * result string))
  : list (string * string) :=
  match cells with
  | (col, Ok s) :: rest => (col, s) :: ok_prefix rest
  | _ => []
  end.

Fixpoint first_outcome (cells : list (string * result string))
  : outcome unit :=
  match cells with
  | [] => Val tt
  | (_, Ok _) :: rest => first_outcome rest
  | (_, Raise e) :: _ => Exc e
  end.

Definition append_to (t : gmap string (list string)) (cs : string * string)
  : gmap string (list string) :=
  <[cs.1 := default [] (t !! cs.1) ++ [cs.2]]> t.

Definition appended (done : list (string * string))
  (t : gmap string (list string)) : gmap string (list string) :=
  foldl append_to t done.

(** An order as the data model has it: a dict whose [order_items] is
    absent, null or a list. *)
Definition order_shaped (o : json) : Prop :=
  match o with
  | JDict kvs =>
      match assoc "order_items" kvs with
      | None | Some JNull | Some (JList _) => True
      | _ => False
      end
  | _ => False
  end.

Definition item_count (o : json) : nat :=
  match o with
  | JDict kvs =>
      match assoc "order_items" kvs with
      | Some (JList l) => length l
      | _ => 0%nat
      end
  | _ => 0%nat
  end.

Definition row_count (orders : list json) : nat :=
  sum_list (map (fun o => Nat.max 1 (item_count o)) orders).

(** Adding an event list to the trace of a world. *)
Definition logged (w : world) (evs : list event) : world :=
  {| trace := trace w ++ evs; outputs := outputs w |}.

(** What [_unpack_and_return] makes of a table. *)
Definition unpacked {A} (t : gmap string (list string)) : outcome A :=
  match unpack t with
  | Ok cols => Ret cols
  | Raise e => Exc e
  end.

(** [w'] has the trace of [w] and its columns, each possibly longer. *)
Definition extends (w w' : world) : Prop :=
  trace w' = trace w /\
  forall name c, outputs w !! name = Some c ->
    exists c', outputs w' !! name = Some c' /\ c `prefix_of` c'.

(** A statement that only appends cells and does not return from [main]. *)
Definition appends_only {A} (m : M A) : Prop :=
  forall w out w', m w = (out, w') ->
    extends w w' /\ forall r, out <> Ret r.

(** The value under the first of the keys that the entry has. *)
Definition partition_keys : list string :=
  ["partition_num"; "partition"; "page"; "number"].

Fixpoint first_present (keys : list string) (kvs : list (string * json))
  : option json :=
  match keys with
  | [] => None
  | k :: keys' =>
      match assoc k kvs with
      | Some v => Some v
      | None => first_present keys' kvs
      end
  end.

(** The value [int] is applied to for an entry: the entry itself, or for
    a keyed entry the value under its first present key, 0 without one. *)
Definition selected (p : json) : json :=
  match p with
  | JDict kvs => default (JInt 0) (first_present partition_keys kvs)
  | _ => p
  end.

(** The number of an entry that is a raw integer, or keyed with an
    integer under its first present key. *)
Definition entry_number (p : json) : option Z :=
  match selected p with
  | JInt n => Some n
  | _ => None
  end.

(** A poll answer without a usable [partition_info]: absent, null, empty. *)
Definition pending (answer : result json) : Prop :=
  exists j pinfo, answer = Ok j /\
    dict_get j "partition_info" JNull = Ok pinfo /\ truthy pinfo = false.

(** [k] polls without result, each followed by the two-second sleep. *)
Definition polls (sid : json) (k : nat) : list event :=
  concat (replicate k [Http (GetPoll sid); Sleep 2]).

(** The table with every column empty. *)
Definition empty_table : returned := replicate 70 [].

(** The entries of [PLAN_IDS] that pass the filter of the comprehension. *)
Definition kept_entries (plan_ids : string) : list string :=
  List.filter (fun x => isdigit (strip x)) (split "," plan_ids).

(** The error lines of the four stages before flattening. *)
Definition terminal (m : message) : bool :=
  match m with
  | AuthFailedNoToken | AuthError _ | NoValidPlanIds | NoSearchId
  | SearchInitError _ | TimeoutWaiting | PollingError _
  | PartitionFetchError _ => true
  | _ => false
  end.

Definition quiet (ev : event) : Prop :=
  match ev with
  | LogError m => terminal m = false
  | _ => True
  end.

(** A stage before flattening, run on the empty table: it goes on
    without a terminal error line, or returns the empty table after one;
    [allow_exc] tells whether an exception may leave it. *)
Definition stage_spec (allow_exc : bool) {A} (m : M A) : Prop :=
  forall w, outputs w = empty_outputs ->
    exists out evs, m w = (out, logged w evs) /\
      match out with
      | Val _ => Forall quiet evs
      | Exc _ => allow_exc = true /\ Forall quiet evs
      | Ret r => r = empty_table /\
                 exists m, terminal m = true /\ LogError m ∈ evs
      end.

(** The rest of a run: it returns 70 columns, empty ones after a terminal
    error line. *)
Definition final_spec (m : M unit) : Prop :=
  forall w, outputs w = empty_outputs ->
    exists cols evs w', m w = (Ret cols, w') /\
      trace w' = trace w ++ evs /\ length cols = 70%nat /\
      (Forall quiet evs \/ cols = empty_table).

(** The text of the booking questions cell of an order with items [kvs]. *)
Definition booking_text (kvs : list (string * json)) : string :=
  match assoc "booking_questions" kvs with
  | Some bq => if in_none_empty bq then "" else dumps_text bq
  | None => ""
  end.

(** [s] between double quotes. *)
Definition quoted (s : string) : string :=
  String dquote (s +:+ String dquote "").

(** *** Sample data *)

Definition order_O1 : json :=
  JDict [("id", JStr "O1");
         ("order_items",
          JList [JDict [("id", JStr "I1"); ("owner", JDict [("id", JStr "U1")])]])].

Definition order_two_items : json :=
  JDict [("id", JStr "O2");
         ("order_items", JList [JDict [("id", JStr "I2")]; JDict [("id", JStr "I3")]])].

Definition order_no_items : json :=
  JDict [("id", JStr "O3"); ("order_items", JList [])].

(** An order whose currency is nested two deep. *)
Definition order_deep_currency : json :=
  JDict [("id", JStr "O4"); ("currency", JList [JList []])].

(** An order whose buyer has an integer id, an empty email and a null
    phone, and whose surcharge is 0. *)
Definition order_with_buyer : json :=
  JDict [("id", JStr "O5"); ("surcharge", JInt 0);
         ("buyer", JDict [("id", JInt 7); ("email", JStr "");
                          ("phone", JNull)])].

Definition age_question : json := JList [JDict [("q", JStr "age")]].

Definition example_partition_info : json :=
  JList [JDict [("page", JInt 2)]; JDict [("partition_num", JInt 0)];
         JInt 5; JInt 0].

(** No request gets through. *)
Definition silent_network : network := {|
  token_response := Raise RequestException;
  search_response := fun _ => Raise RequestException;
  poll_response := fun _ _ => Raise RequestException;
  page_response := fun _ _ => Raise RequestException
|}.

(** The search never completes. *)
Definition pending_network : network := {|
  token_response := Ok (JDict [("access_token", JStr "T")]);
  search_response := fun _ => Ok (JDict [("search_id", JStr "S1")]);
  poll_response := fun _ _ => Ok (JDict []);
  page_response := fun _ _ => Ok (JDict [("data", JList [])])
|}.

(** The third poll carries [partition_info]. *)
Definition ready_network (pinfo : json) : network := {|
  token_response := Ok (JDict [("access_token", JStr "T")]);
  search_response := fun _ => Ok (JDict [("search_id", JStr "S1")]);
  poll_response := fun _ attempt =>
    if (attempt <? 2)%nat then Ok (JDict [])
    else Ok (JDict [("partition_info", pinfo)]);
  page_response := fun _ _ => Ok (JDict [("data", JList [order_O1])])
|}.

(** A plan id written with the superscript two. *)
Definition superscript_config : config := {|
  BEARER := "";
  PLAN_IDS := String (ascii_of_N 178) "";
  DATE_FIELD := "";
  DATE_FROM := "";
  DATE_TO := ""
|}.

(** What one page adds to the orders: the [data] of the answer, iterated
    as [orders += data] does. *)
Definition page_data (answer : result json) : result (list json) :=
  j <- answer ;;
  data <- dict_get j "data" (JList []) ;;
  py_iter data.

(** The page requests for [parts], in order. *)
Definition page_requests (sid : json) (parts : list Z) : list event :=
  map (fun p => Http (GetPage sid p)) parts.

(** A network whose pages carry one order each, except page 2, which has
    a null [data]. *)
Definition null_page_network (pinfo : json) : network := {|
  token_response := Ok (JDict [("access_token", JStr "T")]);
  search_response := fun _ => Ok (JDict [("search_id", JStr "S1")]);
  poll_response := fun _ _ => Ok (JDict [("partition_info", pinfo)]);
  page_response := fun _ p =>
    if p =? 2 then Ok (JDict [("data", JNull)])
    else Ok (JDict [("data", JList [order_O1])])
|}.

(** The answers to the token request and to the search carry no token
    and a search id of 0. *)
Definition empty_answers_network : network := {|
  token_response := Ok (JDict [("access_token", JStr "")]);
  search_response := fun _ => Ok (JDict [("search_id", JInt 0)]);
  poll_response := fun _ _ => Ok (JDict []);
  page_response := fun _ _ => Ok (JDict [])
|}.

(** A token given in the settings, with blanks around it. *)
Definition bearer_config : config := {|
  BEARER := " T0 ";
  PLAN_IDS := "7";
  DATE_FIELD := "";
  DATE_FROM := "";
  DATE_TO := ""
|}.

(** The rest of a run returns 70 columns of one length. *)
Definition rect_spec (m : M unit) : Prop :=
  forall w, outputs w = empty_outputs ->
    exists cols n w', m w = (Ret cols, w') /\
      length cols = 70%nat /\ Forall (fun c => length c = n) cols.

(** Counting events of a kind in a trace. *)
Definition is_poll (ev : event) : bool :=
  match ev with Http (GetPoll _) => true | _ => false end.

Definition is_sleep (ev : event) : bool :=
  match ev with Sleep _ => true | _ => false end.

Definition count_events (P : event -> bool) (evs : list event) : nat :=
  length (List.filter P evs).

Definition weight (P : event -> bool) (ev : event) : nat :=
  if P ev then 1%nat else 0%nat.

(** A statement adds at most [n] events of the kind [P] to the trace. *)
Definition adds_at_most (P : event -> bool) (n : nat) {A} (m : M A) : Prop :=
  forall w out w', m w = (out, w') ->
    exists evs, trace w' = trace w ++ evs /\ (count_events P evs <= n)%nat.

(** The value of a run of decimal digits. *)
Fixpoint digits_acc (s : string) (acc : Z) : Z :=
  match s with
  | EmptyString => acc
  | String c s' => digits_acc s' (10 * acc + (Z.of_N (code c) - 48))
  end.

Definition decimal_value (s : string) : Z := digits_acc s 0.

(** A numeral: one decimal digit or more, nothing else. *)
Definition numeral (s : string) : Prop :=
  negb (String.eqb s "") && all_chars is_decimal s = true.

(** Plain text: the printable characters of ASCII and its blanks. *)
Definition plain_char (c : ascii) : bool :=
  let n := code c in
  (((9 <=? n) && (n <=? 13)) || ((32 <=? n) && (n <=? 126)))%N.

Definition plain_text (s : string) : Prop := all_chars plain_char s = true.

(** One decimal digit or more and nothing else, as a test. *)
Definition is_numeral (s : string) : bool :=
  negb (String.eqb s "") && all_chars is_decimal s.

(** The plan ids read from the entries that pass the filter, each the
    value of the digits left when the blanks around them are removed. *)
Definition kept_ids (plan_ids : string) : list Z :=
  map (fun x => decimal_value (strip x)) (kept_entries plan_ids).

(** Settings with entries that are not plan ids among those that are,
    and a first date. *)
Definition mixed_config : config := {|
  BEARER := "";
  PLAN_IDS := "12, abc,, 7 ,4x";
  DATE_FIELD := "";
  DATE_FROM := "2024-01-01";
  DATE_TO := ""
|}.

(** Settings without any plan id. *)
Definition no_ids_config : config := {|
  BEARER := "";
  PLAN_IDS := "abc, ,-5";
  DATE_FIELD := "";
  DATE_FROM := "";
  DATE_TO := ""
|}.

(** The search is accepted but its answer names no search. *)
Definition no_search_id_network : network := {|
  token_response := Ok (JDict [("access_token", JStr "T")]);
  search_response := fun _ => Ok (JDict [("status", JStr "queued")]);
  poll_response := fun _ _ => Ok (JDict []);
  page_response := fun _ _ => Ok (JDict [("data", JList [])])
|}.

(** ** Properties *)

Lemma variable_names_NoDup : NoDup variable_names.
Proof. apply (bool_decide_unpack _). vm_compute. exact I. Qed.

Lemma variable_names_length : length variable_names = 70%nat.
Proof. reflexivity. Qed.

Lemma row_cells_columns o it : (row_cells o it).*1 = variable_names.
Proof. reflexivity. Qed.

Lemma bind_val {A B} (m : M A) (k : A -> M B) w a w' :
  m w = (Val a, w') -> bind m k w = k a w'.
Proof. unfold bind. intros ->. reflexivity. Qed.

Lemma bind_exc {A B} (m : M A) (k : A -> M B) w e w' :
  m w = (Exc e, w') -> bind m k w = (Exc e, w').
Proof. unfold bind. intros ->. reflexivity. Qed.

Lemma bind_ret {A B} (m : M A) (k : A -> M B) w r w' :
  m w = (Ret r, w') -> bind m k w = (Ret r, w').
Proof. unfold bind. intros ->. reflexivity. Qed.

Lemma ok_prefix_columns cells :
  (ok_prefix cells).*1 = take (length (ok_prefix cells)) cells.*1.
Proof.
  induction cells as [|[col [s|e]] rest IH]; simpl; [done| |done].
  f_equal. exact IH.
Qed.

Lemma ok_prefix_length cells :
  (length (ok_prefix cells) <= length cells)%nat.
Proof.
  induction cells as [|[col [s|e]] rest IH]; simpl; lia.
Qed.

Lemma first_outcome_val cells :
  first_outcome cells = Val tt <-> length (ok_prefix cells) = length cells.
Proof.
  induction cells as [|[col [s|e]] rest IH]; simpl; [done| |done].
  rewrite IH. split; [congruence|lia].
Qed.

Lemma first_outcome_not_ret cells r : first_outcome cells <> Ret r.
Proof. induction cells as [|[col [s|e]] rest IH]; simpl; congruence. Qed.

Lemma first_outcome_exc cells e :
  first_outcome cells = Exc e ->
  (length (ok_prefix cells) < length cells)%nat.
Proof.
  induction cells as [|[col [s|e']] rest IH]; simpl; [done| |lia].
  intros H. apply IH in H. lia.
Qed.

Lemma append_to_columns t cs name :
  is_Some (t !! name) -> is_Some (append_to t cs !! name).
Proof.
  unfold append_to. intros H. destruct (decide (cs.1 = name)) as [->|Hne].
  - rewrite lookup_insert_eq. eauto.
  - by rewrite lookup_insert_ne.
Qed.

(** A row runs its appends up to the first cell that raises; the cells
    appended until then stay in the table. *)
Lemma run_appends_spec cells w :
  (forall col, col ∈ cells.*1 -> is_Some (outputs w !! col)) ->
  run_appends cells w =
    (first_outcome cells,
     {| trace := trace w;
        outputs := appended (ok_prefix cells) (outputs w) |}).
Proof.
  revert w. induction cells as [|[col cell] rest IH]; intros w Hcols.
  - destruct w. reflexivity.
  - simpl. unfold bind, append_cell.
    destruct (Hcols col) as [c Hc]; [simpl; left|]. rewrite Hc.
    destruct cell as [s|e]; [|destruct w; reflexivity].
    rewrite IH; simpl.
    + unfold appended at 2. simpl. unfold append_to at 2. simpl.
      rewrite Hc. reflexivity.
    + intros col' Hin.
      destruct (decide (col = col')) as [->|Hne].
      * rewrite lookup_insert_eq. eauto.
      * rewrite lookup_insert_ne by done. apply Hcols. simpl. by right.
Qed.

(** A column of the table after appending cells of distinct columns. *)
Lemma appended_lookup done t name c :
  NoDup done.*1 ->
  t !! name = Some c ->
  appended done t !! name =
    Some (match list_find (fun cs => cs.1 = name) done with
          | Some (_, cs) => c ++ [cs.2]
          | None => c
          end).
Proof.
  revert t c. induction done as [|[col s] rest IH]; intros t c Hnd Hc.
  - done.
  - simpl in Hnd. apply NoDup_cons in Hnd as [Hnotin Hnd].
    unfold appended. simpl. fold (appended rest (append_to t (col, s))).
    destruct (decide (col = name)) as [->|Hne].
    + erewrite IH; [|done|].
      2:{ unfold append_to. simpl. rewrite lookup_insert_eq, Hc. done. }
      simpl.
      destruct (list_find _ rest) as [[i cs]|] eqn:Hfind; [|done].
      apply list_find_Some in Hfind as (Hi & Heq & _).
      exfalso. apply Hnotin. rewrite <- Heq.
      apply list_elem_of_fmap. exists cs. split; [done|].
      by eapply list_elem_of_lookup_2.
    + erewrite IH; [|done|].
      2:{ unfold append_to. simpl. rewrite lookup_insert_ne by done. done. }
      simpl.
      destruct (list_find _ rest) as [[i cs]|]; done.
Qed.

Lemma NoDup_fst_functional {A B} (l : list (A * B)) x y1 y2 :
  NoDup l.*1 -> (x, y1) ∈ l -> (x, y2) ∈ l -> y1 = y2.
Proof.
  induction l as [|[a b] l IH]; simpl; intros Hnd H1 H2.
  - by apply elem_of_nil in H1.
  - apply NoDup_cons in Hnd as [Hnotin Hnd].
    apply elem_of_cons in H1 as [H1|H1]; apply elem_of_cons in H2 as [H2|H2].
    + congruence.
    + injection H1 as -> ->. exfalso. apply Hnotin.
      apply list_elem_of_fmap. by exists (a, y2).
    + injection H2 as -> ->. exfalso. apply Hnotin.
      apply list_elem_of_fmap. by exists (a, y1).
    + by apply IH.
Qed.

Lemma appended_cell done t name s c :
  NoDup done.*1 ->
  (name, s) ∈ done ->
  t !! name = Some c ->
  appended done t !! name = Some (c ++ [s]).
Proof.
  intros Hnd Hin Hc. rewrite (appended_lookup _ _ _ _ Hnd Hc).
  destruct (list_find _ done) as [[i cs]|] eqn:Hfind.
  - apply list_find_Some in Hfind as (Hi & Heq & _).
    apply list_elem_of_lookup_2 in Hi. destruct cs as [col s']. simpl in *.
    subst col. do 2 f_equal. f_equal.
    by eapply NoDup_fst_functional.
  - apply list_find_None in Hfind.
    rewrite Forall_forall in Hfind. by apply Hfind in Hin.
Qed.

Lemma appended_length done t name c :
  NoDup done.*1 ->
  t !! name = Some c ->
  exists c', appended done t !! name = Some c' /\
    length c' = (if bool_decide (name ∈ done.*1)
                 then S (length c) else length c) /\
    c `prefix_of` c'.
Proof.
  intros Hnd Hc. rewrite (appended_lookup _ _ _ _ Hnd Hc).
  destruct (list_find _ done) as [[i cs]|] eqn:Hfind.
  - apply list_find_Some in Hfind as (Hi & Heq & _).
    eexists. split; [done|]. split; [|by apply prefix_app_r].
    rewrite bool_decide_eq_true_2.
    + rewrite length_app. simpl. lia.
    + rewrite <- Heq. apply list_elem_of_fmap. exists cs. split; [done|].
      by eapply list_elem_of_lookup_2.
  - apply list_find_None in Hfind. rewrite Forall_forall in Hfind.
    eexists. split; [done|]. split; [|done].
    rewrite bool_decide_eq_false_2; [done|].
    intros Hin. apply list_elem_of_fmap in Hin as (cs & -> & Hcs).
    by apply Hfind in Hcs.
Qed.

Lemma aligned_has_columns n t : aligned n t -> has_columns t.
Proof. intros H name Hin. destruct (H name Hin) as (c & -> & _). eauto. Qed.

Lemma flatten_row_spec o it w :
  has_columns (outputs w) ->
  flatten_row o it w =
    (first_outcome (row_cells o it),
     {| trace := trace w;
        outputs := appended (ok_prefix (row_cells o it)) (outputs w) |}).
Proof.
  intros H. apply run_appends_spec. intros col Hin. apply H.
  by rewrite row_cells_columns in Hin.
Qed.

Lemma ok_prefix_row_columns o it :
  (ok_prefix (row_cells o it)).*1 =
    take (length (ok_prefix (row_cells o it))) variable_names.
Proof. rewrite ok_prefix_columns. by rewrite row_cells_columns. Qed.

Lemma ok_prefix_row_NoDup o it : NoDup (ok_prefix (row_cells o it)).*1.
Proof.
  rewrite ok_prefix_row_columns.
  eapply sublist_NoDup; [apply variable_names_NoDup|apply sublist_take].
Qed.

Arguments row_cells : simpl never.

Lemma row_cells_length o it : length (row_cells o it) = 70%nat.
Proof. reflexivity. Qed.

(** A row that completes adds one cell to every column. *)
Lemma flatten_row_val o it w w' n :
  aligned n (outputs w) ->
  flatten_row o it w = (Val tt, w') ->
  aligned (S n) (outputs w') /\ trace w' = trace w.
Proof.
  intros Hal Hrun.
  rewrite flatten_row_spec in Hrun by (by eapply aligned_has_columns).
  apply pair_equal_spec in Hrun as [Hout <-]. split; [|done].
  apply first_outcome_val in Hout. rewrite row_cells_length in Hout.
  intros name Hin. destruct (Hal name Hin) as (c & Hc & Hlen).
  destruct (appended_length _ _ _ _ (ok_prefix_row_NoDup o it) Hc)
    as (c' & Hc' & Hlen' & _).
  exists c'. split; [done|]. rewrite Hlen'.
  rewrite bool_decide_eq_true_2; [lia|].
  rewrite ok_prefix_row_columns, Hout.
  rewrite take_ge by (rewrite variable_names_length; lia). done.
Qed.

(** A row that raises has appended the cells of the columns before the
    failing one, and only those. *)
Lemma flatten_row_exc o it w w' e n :
  aligned n (outputs w) ->
  flatten_row o it w = (Exc e, w') ->
  exists k, (k < 70)%nat /\ trace w' = trace w /\
    forall i name, variable_names !! i = Some name ->
      exists c, outputs w' !! name = Some c /\
        length c = if (i <? k)%nat then S n else n.
Proof.
  intros Hal Hrun.
  rewrite flatten_row_spec in Hrun by (by eapply aligned_has_columns).
  apply pair_equal_spec in Hrun as [Hout <-].
  apply first_outcome_exc in Hout. rewrite row_cells_length in Hout.
  exists (length (ok_prefix (row_cells o it))).
  split; [done|]. split; [done|].
  intros i name Hi.
  destruct (Hal name) as (c & Hc & Hlen).
  { by eapply list_elem_of_lookup_2. }
  destruct (appended_length _ _ _ _ (ok_prefix_row_NoDup o it) Hc)
    as (c' & Hc' & Hlen' & _).
  exists c'. split; [done|]. rewrite Hlen', Hlen.
  rewrite ok_prefix_row_columns.
  destruct (Nat.ltb_spec i (length (ok_prefix (row_cells o it)))) as [Hlt|Hge].
  - rewrite bool_decide_eq_true_2; [done|].
    apply list_elem_of_lookup. exists i. rewrite lookup_take_lt; done.
  - rewrite bool_decide_eq_false_2; [done|].
    intros Hin. apply list_elem_of_lookup in Hin as (j & Hj).
    apply lookup_take_Some in Hj as [Hj Hjlt].
    assert (i = j) by (eapply NoDup_lookup; eauto using variable_names_NoDup).
    lia.
Qed.

(** *** The field accessor *)

Lemma _g_null ks : _g JNull ks = Ok "".
Proof. destruct ks; reflexivity. Qed.

Lemma _g_follow d ks :
  _g d ks = match follow d ks with
            | Some v => if in_none_empty v then Ok "" else py_str v
            | None => Ok ""
            end.
Proof.
  revert d. induction ks as [|k ks IH]; intros d; [done|].
  destruct d; try reflexivity. simpl.
  destruct (assoc k kvs) as [x|]; [apply IH|apply _g_null].
Qed.

Lemma follow_app d pre ks :
  follow d (pre ++ ks) =
    match follow d pre with
    | Some v => follow v ks
    | None => None
    end.
Proof.
  revert d. induction pre as [|k pre IH]; intros d; [done|].
  simpl. destruct d; try done. destruct (assoc k kvs); [apply IH|done].
Qed.

Lemma _g_ok d ks : (forall v, is_ok (py_str v)) -> is_ok (_g d ks).
Proof.
  intros Hstr. rewrite _g_follow.
  destruct (follow d ks) as [v|]; [|by eexists].
  destruct (in_none_empty v); [by eexists|apply Hstr].
Qed.

Lemma in_none_empty_spec v :
  in_none_empty v = true <-> v = JNull \/ v = JStr "".
Proof.
  destruct v as [|b|n|s|l|kvs]; simpl;
    try (split; [done|intros [?|?]; done]).
  - split; [by left|done].
  - rewrite String.eqb_eq. split; [intros ->; by right|].
    intros [?|[= ->]]; done.
Qed.

(** *** Flattening *)

Lemma first_outcome_all_ok cells :
  Forall (fun c => is_ok c.2) cells -> first_outcome cells = Val tt.
Proof.
  induction 1 as [|[col cell] rest [s Hs] _ IH]; [done|].
  simpl in Hs. subst cell. exact IH.
Qed.

Lemma booking_questions_cell_ok kvs :
  (forall v, is_ok (json_dumps v)) ->
  is_ok (booking_questions_cell (JDict kvs)).
Proof.
  intros Hd. unfold booking_questions_cell. simpl.
  destruct (negb _); [apply Hd|by eexists].
Qed.

Lemma row_cells_ok kvs it :
  (forall v, is_ok (py_str v)) -> (forall v, is_ok (json_dumps v)) ->
  Forall (fun c => is_ok c.2) (row_cells (JDict kvs) it).
Proof.
  intros Hs Hd. unfold row_cells.
  repeat (apply Forall_cons; split;
          [first [by apply _g_ok | by apply booking_questions_cell_ok]|]).
  by apply Forall_nil.
Qed.

Lemma for_each_app {A} (body : A -> M unit) l1 l2 w :
  for_each body (l1 ++ l2) w = (for_each body l1 >> for_each body l2) w.
Proof.
  revert w. induction l1 as [|a l1 IH]; intros w; [done|].
  simpl. unfold bind. destruct (body a w) as [[[]|e|r] w1]; [|done..].
  rewrite IH. reflexivity.
Qed.

Section Totals.

Hypothesis py_str_returns : forall v, is_ok (py_str v).
Hypothesis json_dumps_returns : forall v, is_ok (json_dumps v).

Lemma flatten_rows_val kvs items w n :
  aligned n (outputs w) ->
  exists w', for_each (flatten_row (JDict kvs)) items w = (Val tt, w') /\
    aligned (n + length items) (outputs w') /\ trace w' = trace w.
Proof.
  revert w n. induction items as [|it items IH]; intros w n Hal.
  - exists w. rewrite Nat.add_0_r. done.
  - assert (Hrow : flatten_row (JDict kvs) it w =
              (Val tt, {| trace := trace w; outputs :=
                 appended (ok_prefix (row_cells (JDict kvs) it)) (outputs w) |})).
    { rewrite flatten_row_spec by (by eapply aligned_has_columns).
      rewrite first_outcome_all_ok; [done|by apply row_cells_ok]. }
    destruct (flatten_row_val _ _ _ _ _ Hal Hrow) as [Hal' Htr].
    destruct (IH _ _ Hal') as (w' & Hrun & Hal'' & Htr').
    exists w'. simpl. rewrite (bind_val _ _ _ _ _ Hrow), Hrun.
    split; [done|]. split; [|by rewrite Htr'].
    by replace (n + S (length items))%nat with (S n + length items)%nat by lia.
Qed.

Lemma order_items_shaped o :
  order_shaped o ->
  exists kvs items, o = JDict kvs /\ order_items o = Ok items /\
    length items = Nat.max 1 (item_count o).
Proof.
  destruct o as [| | | | |kvs]; try done. intros Hsh.
  exists kvs. unfold order_items, item_count, order_shaped in *. simpl.
  destruct (assoc "order_items" kvs) as [[| | | |l|]|]; try done.
  - by eexists.
  - destruct l as [|x l]; eexists; (split; [done|]); (split; [done|]).
    + done.
    + simpl. lia.
  - by eexists.
Qed.

Lemma flatten_order_val o w n :
  order_shaped o -> aligned n (outputs w) ->
  exists w', flatten_order o w = (Val tt, w') /\
    aligned (n + Nat.max 1 (item_count o)) (outputs w') /\
    trace w' = trace w.
Proof.
  intros Hsh Hal.
  destruct (order_items_shaped o Hsh) as (kvs & items & -> & Hit & Hlen).
  destruct (flatten_rows_val kvs items w n Hal) as (w' & Hrun & Hal' & Htr).
  exists w'. unfold flatten_order, bind, lift. rewrite Hit, Hrun, <- Hlen.
  done.
Qed.

Lemma flatten_val orders w n :
  Forall order_shaped orders -> aligned n (outputs w) ->
  exists w', flatten orders w = (Val tt, w') /\
    aligned (n + row_count orders) (outputs w') /\ trace w' = trace w.
Proof.
  intros Hsh. revert w n.
  induction Hsh as [|o orders Ho _ IH]; intros w n Hal.
  - exists w. unfold row_count. simpl. rewrite Nat.add_0_r. done.
  - destruct (flatten_order_val o w n Ho Hal) as (w1 & Hrun1 & Hal1 & Htr1).
    destruct (IH _ _ Hal1) as (w' & Hrun & Hal' & Htr').
    exists w'. unfold flatten in *. simpl.
    rewrite (bind_val _ _ _ _ _ Hrun1), Hrun. split; [done|].
    split; [|congruence].
    unfold row_count in *. simpl.
    by rewrite Nat.add_assoc.
Qed.

End Totals.

Lemma rmapM_ok {A B} (f : A -> result B) (P : B -> Prop) l :
  (forall a, a ∈ l -> exists b, f a = Ok b /\ P b) ->
  exists bs, rmapM f l = Ok bs /\ length bs = length l /\ Forall P bs.
Proof.
  induction l as [|a l IH]; intros H.
  - exists []. done.
  - destruct (H a) as (b & Hb & HP); [by left|].
    destruct IH as (bs & Hbs & Hlen & HPs).
    { intros a' Hin. apply H. by right. }
    exists (b :: bs). simpl. rewrite Hb. simpl. rewrite Hbs. simpl.
    split; [done|]. split; [by rewrite Hlen|by constructor].
Qed.

Lemma rmapM_lookup {A B} (f : A -> result B) l bs i a :
  rmapM f l = Ok bs -> l !! i = Some a ->
  exists b, bs !! i = Some b /\ f a = Ok b.
Proof.
  revert bs i. induction l as [|a' l IH]; intros bs i Hrun Hi; [done|].
  simpl in Hrun. destruct (f a') as [b'|] eqn:Hb'; [|done]. simpl in Hrun.
  destruct (rmapM f l) as [bs'|] eqn:Hbs'; [|done]. simpl in Hrun.
  injection Hrun as <-. destruct i as [|i]; simpl in *.
  - injection Hi as ->. eauto.
  - eapply IH; eauto.
Qed.

Lemma unpack_aligned n t :
  aligned n t ->
  exists cols, unpack t = Ok cols /\ length cols = 70%nat /\
    Forall (fun c => length c = n) cols.
Proof.
  intros Hal.
  destruct (rmapM_ok (column t) (fun c => length c = n) variable_names)
    as (cols & Hcols & Hlen & Hall).
  { intros name Hin. destruct (Hal name Hin) as (c & Hc & Hn).
    exists c. unfold column. by rewrite Hc. }
  exists cols. unfold unpack. rewrite Hcols. simpl.
  rewrite Hlen, variable_names_length. done.
Qed.

Lemma unpack_has_columns t :
  has_columns t -> exists cols, unpack t = Ok cols /\ length cols = 70%nat.
Proof.
  intros Hc.
  destruct (rmapM_ok (column t) (fun _ => True) variable_names)
    as (cols & Hcols & Hlen & _).
  { intros name Hin. destruct (Hc name Hin) as [c Hcol].
    exists c. unfold column. by rewrite Hcol. }
  exists cols. unfold unpack. rewrite Hcols. simpl.
  rewrite Hlen, variable_names_length. done.
Qed.

Lemma unpack_lookup t cols i name :
  unpack t = Ok cols -> variable_names !! i = Some name ->
  cols !! i = t !! name.
Proof.
  unfold unpack. intros Hrun Hi.
  destruct (rmapM (column t) variable_names) as [cs|] eqn:Hcs; [|done].
  simpl in Hrun. destruct (length cs =? 70)%nat; [|done].
  injection Hrun as <-.
  destruct (rmapM_lookup _ _ _ _ _ Hcs Hi) as (c & Hc & Hcol).
  unfold column in Hcol. destruct (t !! name); [|done].
  injection Hcol as ->. exact Hc.
Qed.

Lemma empty_outputs_lookup name :
  name ∈ variable_names -> empty_outputs !! name = Some [].
Proof.
  intros Hin. unfold empty_outputs. apply elem_of_list_to_map_1.
  - change (NoDup variable_names). apply variable_names_NoDup.
  - apply list_elem_of_fmap. by exists name.
Qed.

Lemma start_aligned : aligned 0 (outputs start).
Proof. intros name Hin. exists []. split; [by apply empty_outputs_lookup|done]. Qed.

(** C1. For orders shaped as the data model has them ([str] and
    [json.dumps] returning), flatten completes and every column of the
    table ends with the sum over the orders of max(1, number of items)
    cells: an order without items gives one row, an order with n items n
    rows. *)
Theorem flatten_row_count (orders : list json) :
  (forall v, is_ok (py_str v)) ->
  (forall v, is_ok (json_dumps v)) ->
  Forall order_shaped orders ->
  exists w cols,
    flatten orders start = (Val tt, w) /\
    unpack (outputs w) = Ok cols /\
    length cols = 70%nat /\
    Forall (fun c => length c = row_count orders) cols.
Proof.
  intros Hs Hd Hsh.
  destruct (flatten_val Hs Hd orders start 0%nat Hsh start_aligned)
    as (w & Hrun & Hal & _).
  destruct (unpack_aligned _ _ Hal) as (cols & Hcols & Hlen & Hall).
  exists w, cols. done.
Qed.

(** *** Errors while flattening *)

Lemma extends_refl w : extends w w.
Proof. split; [done|]. intros name c Hc. eauto. Qed.

Lemma extends_trans w1 w2 w3 : extends w1 w2 -> extends w2 w3 -> extends w1 w3.
Proof.
  intros [Ht1 Hc1] [Ht2 Hc2]. split; [congruence|].
  intros name c Hc. destruct (Hc1 _ _ Hc) as (c' & Hc' & Hp).
  destruct (Hc2 _ _ Hc') as (c'' & Hc'' & Hp'). exists c''.
  split; [done|]. by etrans.
Qed.

Lemma extends_has_columns w w' :
  extends w w' -> has_columns (outputs w) -> has_columns (outputs w').
Proof.
  intros [_ Hc] H name Hin. destruct (H name Hin) as [c Hcol].
  destruct (Hc _ _ Hcol) as (c' & -> & _). eauto.
Qed.

Lemma appends_only_ret {A} (a : A) : appends_only (ret a).
Proof.
  intros w out w' [= <- <-]. split; [apply extends_refl|done].
Qed.

Lemma appends_only_lift {A} (r : result A) : appends_only (lift r).
Proof.
  intros w out w'. unfold lift.
  destruct r; intros [= <- <-]; (split; [apply extends_refl|done]).
Qed.

Lemma appends_only_bind {A B} (m : M A) (k : A -> M B) :
  appends_only m -> (forall a, appends_only (k a)) -> appends_only (bind m k).
Proof.
  intros Hm Hk w out w'. unfold bind.
  destruct (m w) as [[a|e|r] w1] eqn:Hrun; destruct (Hm _ _ _ Hrun) as [He Hr].
  - intros Hrun2. destruct (Hk _ _ _ _ Hrun2) as [He2 Hr2].
    split; [by eapply extends_trans|done].
  - intros [= <- <-]. done.
  - by destruct (Hr r).
Qed.

Lemma appends_only_append_cell col cell : appends_only (append_cell col cell).
Proof.
  intros w out w'. unfold append_cell.
  destruct (outputs w !! col) as [c|] eqn:Hc.
  - destruct cell as [s|e].
    + intros [= <- <-]. split; [|done]. split; [done|]. simpl.
      intros name c0 Hc0. destruct (decide (col = name)) as [->|Hne].
      * rewrite lookup_insert_eq. exists (c ++ [s]). split; [done|].
        replace c0 with c by congruence. by apply prefix_app_r.
      * rewrite lookup_insert_ne by done. eauto.
    + intros [= <- <-]. split; [apply extends_refl|done].
  - intros [= <- <-]. split; [apply extends_refl|done].
Qed.

Lemma appends_only_run_appends cells : appends_only (run_appends cells).
Proof.
  induction cells as [|[col cell] rest IH]; simpl.
  - apply appends_only_ret.
  - apply appends_only_bind; [apply appends_only_append_cell|done].
Qed.

Lemma appends_only_for_each {A} (body : A -> M unit) l :
  (forall a, appends_only (body a)) -> appends_only (for_each body l).
Proof.
  intros Hb. induction l as [|a l IH]; simpl.
  - apply appends_only_ret.
  - apply appends_only_bind; [apply Hb|done].
Qed.

Lemma appends_only_flatten_order o : appends_only (flatten_order o).
Proof.
  apply appends_only_bind; [apply appends_only_lift|].
  intros items. apply appends_only_for_each.
  intros it. apply appends_only_run_appends.
Qed.

Lemma appends_only_flatten orders : appends_only (flatten orders).
Proof. apply appends_only_for_each, appends_only_flatten_order. Qed.

Lemma after_fetch_exc orders w w' e :
  flatten orders w = (Exc e, w') ->
  after_fetch orders w =
    (unpacked (outputs w'), logged w' [LogError (FlattenError e)]).
Proof.
  intros Hrun. unfold after_fetch, flatten_stage, bind, try_. rewrite Hrun.
  unfold log_error, emit, _unpack_and_return, unpacked, logged.
  cbn [outputs trace]. by destruct (unpack (outputs w')).
Qed.

Lemma after_fetch_val orders w w' :
  flatten orders w = (Val tt, w') ->
  after_fetch orders w = (unpacked (outputs w'), w').
Proof.
  intros Hrun. unfold after_fetch, flatten_stage, bind, try_. rewrite Hrun.
  unfold _unpack_and_return, unpacked. by destruct (unpack (outputs w')).
Qed.

(** C4, as the script has it. An error while an order is flattened ends
    the loop there: the cells appended so far stay, the orders after the
    failing one are not processed, and the table as it stands is unpacked
    and returned. *)
Theorem flatten_error_contained
  (done rest : list json) (bad : json) (w w1 w2 : world) (e : exn) :
  flatten done w = (Val tt, w1) ->
  flatten_order bad w1 = (Exc e, w2) ->
  after_fetch (done ++ bad :: rest) w =
    (unpacked (outputs w2), logged w2 [LogError (FlattenError e)]) /\
  extends w1 w2.
Proof.
  intros Hdone Hbad. split.
  - apply after_fetch_exc. unfold flatten in *.
    rewrite for_each_app, (bind_val _ _ _ _ _ Hdone). simpl.
    by rewrite (bind_exc _ _ _ _ _ Hbad).
  - by destruct (appends_only_flatten_order bad _ _ _ Hbad).
Qed.

(** *** Alignment of the columns *)

Lemma for_each_aligned {A} (body : A -> M unit) l :
  (forall a w w' n, aligned n (outputs w) -> body a w = (Val tt, w') ->
     exists n', aligned n' (outputs w')) ->
  forall w w' n, aligned n (outputs w) -> for_each body l w = (Val tt, w') ->
    exists n', aligned n' (outputs w').
Proof.
  intros Hb. induction l as [|a l IH]; intros w w' n Hal; simpl.
  - intros [= <-]. eauto.
  - unfold bind. destruct (body a w) as [[[]|e|r] w1] eqn:Hrun; [|done..].
    destruct (Hb _ _ _ _ Hal Hrun) as [n1 Hal1]. by apply IH with n1.
Qed.

Lemma flatten_aligned orders w w' n :
  aligned n (outputs w) -> flatten orders w = (Val tt, w') ->
  exists n', aligned n' (outputs w').
Proof.
  apply for_each_aligned. clear. intros o w w' n Hal.
  unfold flatten_order, bind, lift.
  destruct (order_items o) as [items|e]; [|done].
  revert w w' n Hal. apply for_each_aligned.
  intros it w w' n Hal Hrun. exists (S n).
  by destruct (flatten_row_val _ _ _ _ _ Hal Hrun).
Qed.

(** When [str] and [json.dumps] return, an error can only come from the
    order itself, before the first append of a row, and the columns stay
    aligned whatever the orders are. *)
Lemma flatten_stays_aligned orders w out w' n :
  (forall v, is_ok (py_str v)) -> (forall v, is_ok (json_dumps v)) ->
  aligned n (outputs w) -> flatten orders w = (out, w') ->
  exists n', aligned n' (outputs w').
Proof.
  intros Hs Hd. revert w n. induction orders as [|o orders IH]; intros w n Hal.
  - intros [= <- <-]. eauto.
  - unfold flatten in *. simpl. unfold bind at 1.
    destruct (flatten_order o w) as [out1 w1] eqn:Hrun1.
    assert (exists n1, aligned n1 (outputs w1) /\
                       (forall a, out1 = Val a -> True)) as (n1 & Hal1 & _).
    { unfold flatten_order, bind, lift in Hrun1.
      destruct (order_items o) as [items|e] eqn:Hit.
      - destruct o as [| | | | |kvs]; try done.
        destruct (flatten_rows_val Hs Hd kvs items w n Hal)
          as (w2 & Hrun2 & Hal2 & _).
        rewrite Hrun2 in Hrun1. injection Hrun1 as <- <-. eauto.
      - injection Hrun1 as <- <-. eauto. }
    destruct out1 as [[]|e|r].
    + by apply IH with n1.
    + intros [= <- <-]. eauto.
    + intros [= <- <-]. eauto.
Qed.

(** C10, with the 70 columns the schema has. A pass of the inner loop
    that completes appends one cell to each of the 70 columns, so after
    a flatten without error all columns have the same length; when a
    pass raises at its k-th append, the cells of the first k columns stay,
    the other columns are not touched, and the table is unpacked and
    returned as it is. *)
Theorem row_alignment :
  (forall o it w w' n,
     aligned n (outputs w) -> flatten_row o it w = (Val tt, w') ->
     aligned (S n) (outputs w')) /\
  (forall orders w',
     flatten orders start = (Val tt, w') ->
     exists n, aligned n (outputs w')) /\
  (forall o it w w' e n,
     aligned n (outputs w) -> flatten_row o it w = (Exc e, w') ->
     exists k, (k < 70)%nat /\
       forall i name, variable_names !! i = Some name ->
         exists c, outputs w' !! name = Some c /\
           length c = if (i <? k)%nat then S n else n) /\
  (forall orders w w' e,
     flatten orders w = (Exc e, w') ->
     after_fetch orders w =
       (unpacked (outputs w'), logged w' [LogError (FlattenError e)])).
Proof.
  split; [|split; [|split]].
  - intros o it w w' n Hal Hrun.
    by destruct (flatten_row_val _ _ _ _ _ Hal Hrun).
  - intros orders w' Hrun. eapply flatten_aligned; [apply start_aligned|done].
  - intros o it w w' e n Hal Hrun.
    destruct (flatten_row_exc _ _ _ _ _ _ Hal Hrun) as (k & Hk & _ & Hcols).
    eauto.
  - apply after_fetch_exc.
Qed.

(** *** The booking questions cell *)

Lemma ok_prefix_elem cells col cell :
  first_outcome cells = Val tt -> (col, cell) ∈ cells ->
  exists s, cell = Ok s /\ (col, s) ∈ ok_prefix cells.
Proof.
  induction cells as [|[col' [s'|e']] rest IH]; simpl; intros Hout Hin.
  - by apply elem_of_nil in Hin.
  - apply elem_of_cons in Hin as [[= -> ->]|Hin].
    + exists s'. split; [done|]. by left.
    + destruct (IH Hout Hin) as (s & -> & Hs). exists s. split; [done|].
      by right.
  - done.
Qed.

Lemma flatten_row_booking o it w w' c :
  has_columns (outputs w) ->
  outputs w !! "booking_questions" = Some c ->
  flatten_row o it w = (Val tt, w') ->
  exists s, booking_questions_cell o = Ok s /\
    outputs w' !! "booking_questions" = Some (c ++ [s]).
Proof.
  intros Hcols Hc Hrun. rewrite flatten_row_spec in Hrun by done.
  apply pair_equal_spec in Hrun as [Hout <-].
  destruct (ok_prefix_elem _ "booking_questions" (booking_questions_cell o) Hout)
    as (s & Hs & Hin).
  { apply (list_elem_of_lookup_2 _ 30%nat). reflexivity. }
  exists s. split; [done|]. cbn [outputs].
  apply appended_cell; [apply ok_prefix_row_NoDup|done..].
Qed.

(** *** Partition resolution *)

Lemma partition_number_selected p : partition_number p = py_int (selected p).
Proof.
  destruct p as [| | | | |kvs]; try reflexivity.
  unfold partition_number, selected, partition_keys. simpl.
  destruct (assoc "partition_num" kvs); [done|].
  destruct (assoc "partition" kvs); [done|].
  destruct (assoc "page" kvs); [done|].
  destruct (assoc "number" kvs); done.
Qed.

Lemma partition_number_entry p n :
  entry_number p = Some n -> partition_number p = Ok n.
Proof.
  rewrite partition_number_selected. unfold entry_number.
  destruct (selected p); try done. by intros [= ->].
Qed.

Lemma rmapM_Forall2 {A B} (f : A -> result B) l bs :
  Forall2 (fun a b => f a = Ok b) l bs -> rmapM f l = Ok bs.
Proof.
  induction 1 as [|a b l bs Hab _ IH]; [done|].
  simpl. rewrite Hab. simpl. rewrite IH. done.
Qed.

Lemma rmapM_raise {A B} (f : A -> result B) l a :
  a ∈ l -> (forall b, f a <> Ok b) -> exists e, rmapM f l = Raise e.
Proof.
  intros Hin Hbad. induction l as [|a' l IH]; [by apply elem_of_nil in Hin|].
  simpl. destruct (f a') as [b'|e'] eqn:Hb'; [|by eexists].
  apply elem_of_cons in Hin as [->|Hin]; [by destruct (Hbad b')|].
  destruct (IH Hin) as [e ->]. by eexists.
Qed.

Lemma sorted_set_elem l n : n ∈ sorted_set l <-> n ∈ l.
Proof.
  unfold sorted_set. rewrite merge_sort_Permutation.
  rewrite elem_of_elements. apply elem_of_list_to_set.
Qed.

Lemma Sorted_le_NoDup_lt (l : list Z) :
  Sorted Z.le l -> NoDup l -> StronglySorted Z.lt l.
Proof.
  intros Hs Hnd. apply (Sorted_StronglySorted _) in Hs.
  induction Hs as [|x l Hl IH Hall]; [constructor|].
  apply NoDup_cons in Hnd as [Hx Hnd]. constructor; [by apply IH|].
  rewrite Forall_forall in Hall |- *. intros y Hy.
  assert (x <> y) by (intros ->; done).
  specialize (Hall y Hy). lia.
Qed.

Lemma sorted_set_sorted l : StronglySorted Z.lt (sorted_set l).
Proof.
  unfold sorted_set. apply Sorted_le_NoDup_lt.
  - apply (Sorted_merge_sort _).
  - rewrite merge_sort_Permutation. apply NoDup_elements.
Qed.

Lemma filter_nonneg_elem (l : list Z) n :
  n ∈ List.filter (fun p => 0 <=? p) l <-> n ∈ l /\ 0 <= n.
Proof.
  rewrite !list_elem_of_In, filter_In. rewrite Z.leb_le. done.
Qed.

Lemma normalise_parts_spec nums :
  StronglySorted Z.lt (normalise_parts nums) /\
  ((exists n, n ∈ nums /\ 0 <= n) ->
     forall n, n ∈ normalise_parts nums <-> n ∈ nums /\ 0 <= n) /\
  ((forall n, n ∈ nums -> n < 0) -> normalise_parts nums = [0]).
Proof.
  unfold normalise_parts.
  pose proof (sorted_set_sorted (List.filter (fun p => 0 <=? p) nums)) as Hs.
  pose proof (sorted_set_elem (List.filter (fun p => 0 <=? p) nums)) as He.
  destruct (sorted_set _) as [|x l].
  - split; [repeat constructor|]. split; [|done].
    intros (n & Hn & Hpos). exfalso.
    eapply elem_of_nil, He. by apply filter_nonneg_elem.
  - split; [done|]. split.
    + intros _ n. rewrite He. apply filter_nonneg_elem.
    + intros Hneg. exfalso.
      assert (Hx : x ∈ x :: l) by by left.
      apply He, filter_nonneg_elem in Hx as [Hx Hpos].
      apply Hneg in Hx. lia.
Qed.

Lemma normalise_parts_nonempty nums : normalise_parts nums <> [].
Proof. unfold normalise_parts. by destruct (sorted_set _). Qed.

Lemma resolve_partitions_nonempty pinfo parts :
  resolve_partitions pinfo = Ok parts -> parts <> [].
Proof.
  unfold resolve_partitions.
  destruct (py_iter pinfo) as [entries|]; [|done]. simpl.
  destruct (rmapM partition_number entries) as [nums|]; [|done]. simpl.
  intros [= <-]. apply normalise_parts_nonempty.
Qed.

(** C3. Entries that are raw integers or keyed with an integer under the
    first present of partition_num, partition, page, number (0 without
    any of the keys) resolve to the non-negative numbers among them,
    without duplicates and in ascending order, or to [0] when there is
    none; the entries of the example resolve to [0, 2, 5]. *)
Theorem partition_resolution :
  (forall entries nums,
     Forall2 (fun p n => entry_number p = Some n) entries nums ->
     exists parts,
       resolve_partitions (JList entries) = Ok parts /\
       StronglySorted Z.lt parts /\
       ((exists n, n ∈ nums /\ 0 <= n) ->
          forall n, n ∈ parts <-> n ∈ nums /\ 0 <= n) /\
       ((forall n, n ∈ nums -> n < 0) -> parts = [0])) /\
  resolve_partitions
    (JList [JDict [("page", JInt 2)]; JDict [("partition_num", JInt 0)];
            JInt 5; JInt 0]) = Ok [0; 2; 5].
Proof.
  split; [|by vm_compute].
  intros entries nums Hall. exists (normalise_parts nums).
  split; [|apply normalise_parts_spec].
  unfold resolve_partitions. simpl.
  rewrite (rmapM_Forall2 partition_number entries nums); [done|].
  eapply Forall2_impl; [exact Hall|]. intros p n. apply partition_number_entry.
Qed.

Lemma resolve_partitions_raise entries p kvs v :
  p ∈ entries -> p = JDict kvs ->
  first_present partition_keys kvs = Some v ->
  (forall n, py_int v <> Ok n) ->
  exists e, resolve_partitions (JList entries) = Raise e.
Proof.
  intros Hin -> Hv Hbad. unfold resolve_partitions. simpl.
  destruct (rmapM_raise partition_number entries _ Hin) as [e ->].
  - intros n. rewrite partition_number_selected. unfold selected.
    rewrite Hv. apply Hbad.
  - by eexists.
Qed.

(** *** Polling *)

Lemma logged_logged w a b : logged (logged w a) b = logged w (a ++ b).
Proof. unfold logged. simpl. by rewrite app_assoc. Qed.

Lemma logged_nil w : logged w [] = w.
Proof. destruct w. unfold logged. simpl. by rewrite app_nil_r. Qed.

Lemma unpack_empty : unpack empty_outputs = Ok empty_table.
Proof. by vm_compute. Qed.

Lemma fail_with_empty {A} (m : message) w :
  outputs w = empty_outputs ->
  (log_error m >> @_unpack_and_return A) w =
    (Ret empty_table, logged w [LogError m]).
Proof.
  intros Hw.
  assert (Hu : unpack (outputs w) = Ok empty_table)
    by (rewrite Hw; apply unpack_empty).
  unfold bind, log_error, emit, _unpack_and_return.
  cbn [outputs]. rewrite Hu. reflexivity.
Qed.

Lemma emit_logged ev w : emit ev w = (Val tt, logged w [ev]).
Proof. reflexivity. Qed.

Ltac not_in_list :=
  let Hin := fresh "Hin" in
  intros Hin;
  repeat (apply elem_of_cons in Hin as [Hin|Hin]; [discriminate Hin|]);
  by apply elem_of_nil in Hin.

Lemma http_ok r j w : http r (Ok j) w = (Val j, logged w [Http r]).
Proof. reflexivity. Qed.

Lemma http_raise r e w : http r (Raise e) w = (Exc e, logged w [Http r]).
Proof. reflexivity. Qed.

Lemma poll_loop_pending net sid k m a w :
  (forall i, (i < k)%nat -> pending (poll_response net sid (a + i))) ->
  poll_loop net sid (k + m) a w =
    poll_loop net sid m (a + k) (logged w (polls sid k)).
Proof.
  revert a w. induction k as [|k IH]; intros a w Hpend.
  - rewrite Nat.add_0_r. unfold polls. simpl. by rewrite logged_nil.
  - destruct (Hpend 0%nat) as (j & pinfo & Hj & Hget & Hfalse); [lia|].
    rewrite Nat.add_0_r in Hj.
    change (S k + m)%nat with (S (k + m)). cbn [poll_loop].
    rewrite Hj. unfold bind at 1. rewrite http_ok.
    unfold bind at 1. unfold lift at 1. rewrite Hget, Hfalse.
    unfold bind at 1. unfold sleep, emit. cbn [trace outputs].
    rewrite IH.
    + replace (S a + k)%nat with (a + S k)%nat by lia. f_equal.
      unfold logged, polls. cbn [trace outputs replicate concat].
      f_equal. rewrite <- !app_assoc. reflexivity.
    + intros i Hi. replace (S a + i)%nat with (a + S i)%nat by lia.
      apply Hpend. lia.
Qed.

Lemma poll_loop_found net sid n a w j pinfo parts :
  poll_response net sid a = Ok j ->
  dict_get j "partition_info" JNull = Ok pinfo ->
  truthy pinfo = true ->
  resolve_partitions pinfo = Ok parts ->
  poll_loop net sid (S n) a w =
    (Val (Some parts), logged w [Http (GetPoll sid)]).
Proof.
  intros Hj Hget Htrue Hres. cbn [poll_loop].
  rewrite Hj. unfold bind at 1. rewrite http_ok.
  unfold bind at 1. unfold lift at 1. rewrite Hget, Htrue.
  unfold bind, lift. rewrite Hres. reflexivity.
Qed.

Lemma poll_loop_raise net sid n a w j pinfo e :
  poll_response net sid a = Ok j ->
  dict_get j "partition_info" JNull = Ok pinfo ->
  truthy pinfo = true ->
  resolve_partitions pinfo = Raise e ->
  poll_loop net sid (S n) a w = (Exc e, logged w [Http (GetPoll sid)]).
Proof.
  intros Hj Hget Htrue Hres. cbn [poll_loop].
  rewrite Hj. unfold bind at 1. rewrite http_ok.
  unfold bind at 1. unfold lift at 1. rewrite Hget, Htrue.
  unfold bind, lift. rewrite Hres. reflexivity.
Qed.


Lemma poll_found net sid w k j pinfo parts :
  is_ok (py_str sid) -> (k < 60)%nat ->
  (forall i, (i < k)%nat -> pending (poll_response net sid i)) ->
  poll_response net sid k = Ok j ->
  dict_get j "partition_info" JNull = Ok pinfo ->
  truthy pinfo = true ->
  resolve_partitions pinfo = Ok parts ->
  poll net sid w =
    (Val parts, logged w (polls sid k ++ [Http (GetPoll sid)])).
Proof.
  intros [s Hs] Hk Hpend Hj Hget Htrue Hres. unfold poll, try_.
  unfold bind at 1. unfold lift at 1. rewrite Hs.
  unfold bind at 1.
  replace 60%nat with (k + S (59 - k))%nat at 1 by lia.
  rewrite (poll_loop_pending net sid k _ 0 w) by exact Hpend.
  rewrite (poll_loop_found _ _ _ _ _ _ _ _ Hj Hget Htrue Hres).
  rewrite logged_logged.
  destruct parts as [|p ps]; [by apply resolve_partitions_nonempty in Hres|].
  reflexivity.
Qed.

Lemma poll_raise net sid w k j pinfo e :
  is_ok (py_str sid) -> outputs w = empty_outputs -> (k < 60)%nat ->
  (forall i, (i < k)%nat -> pending (poll_response net sid i)) ->
  poll_response net sid k = Ok j ->
  dict_get j "partition_info" JNull = Ok pinfo ->
  truthy pinfo = true ->
  resolve_partitions pinfo = Raise e ->
  poll net sid w =
    (Ret empty_table,
     logged w (polls sid k ++
               [Http (GetPoll sid); LogError (PollingError e)])).
Proof.
  intros [s Hs] Hw Hk Hpend Hj Hget Htrue Hres. unfold poll, try_.
  unfold bind at 1. unfold lift at 1. rewrite Hs.
  unfold bind at 1.
  replace 60%nat with (k + S (59 - k))%nat at 1 by lia.
  rewrite (poll_loop_pending net sid k _ 0 w) by exact Hpend.
  rewrite (poll_loop_raise _ _ _ _ _ _ _ _ Hj Hget Htrue Hres).
  rewrite fail_with_empty by done.
  rewrite !logged_logged, <- ?app_assoc. reflexivity.
Qed.


(** C9, for the key that is read. When the value under the first present
    partition key of a keyed entry does not convert to an integer, the
    resolution raises in [int], the polling stage logs the error and the
    run returns the empty table without requesting a page; the entry is
    not taken as partition 0. *)
Theorem unconvertible_partition_fails
  (net : network) (sid : json) (w : world) (k : nat) (j : json)
  (entries : list json) (kvs : list (string * json)) (v : json) :
  is_ok (py_str sid) -> outputs w = empty_outputs -> (k < 60)%nat ->
  (forall i, (i < k)%nat -> pending (poll_response net sid i)) ->
  poll_response net sid k = Ok j ->
  dict_get j "partition_info" JNull = Ok (JList entries) ->
  JDict kvs ∈ entries ->
  first_present partition_keys kvs = Some v ->
  (forall n, py_int v <> Ok n) ->
  exists e,
    resolve_partitions (JList entries) = Raise e /\
    after_search net sid w =
      (Ret empty_table,
       logged w (polls sid k ++
                 [Http (GetPoll sid); LogError (PollingError e)])).
Proof.
  intros Hs Hw Hk Hpend Hj Hget Hin Hv Hbad.
  destruct (resolve_partitions_raise entries _ kvs v Hin eq_refl Hv Hbad)
    as [e He].
  exists e. split; [done|]. unfold after_search.
  erewrite bind_ret; [done|].
  eapply poll_raise; eauto.
  destruct entries; [by apply elem_of_nil in Hin|done].
Qed.

(** *** Search submission *)

Lemma search_body_keys cfg ids :
  exists kvs, search_body cfg ids = JDict kvs /\
    assoc "plan_ids" kvs = Some (JList (map JInt ids)) /\
    assoc "date_field" kvs =
      (if String.eqb (DATE_FIELD cfg) "" then None
       else Some (JStr (DATE_FIELD cfg))) /\
    assoc "date_from" kvs =
      (if String.eqb (DATE_FROM cfg) "" then None
       else Some (JStr (DATE_FROM cfg))) /\
    assoc "date_to" kvs =
      (if String.eqb (DATE_TO cfg) "" then None
       else Some (JStr (DATE_TO cfg))).
Proof.
  eexists. split; [reflexivity|]. unfold optional_key, truthy.
  destruct (String.eqb (DATE_FIELD cfg) ""), (String.eqb (DATE_FROM cfg) ""),
    (String.eqb (DATE_TO cfg) ""); done.
Qed.

Lemma start_search_no_ids cfg net w :
  outputs w = empty_outputs ->
  parse_plan_ids (PLAN_IDS cfg) = Ok [] ->
  start_search cfg net w =
    (Ret empty_table, logged w [LogError NoValidPlanIds]).
Proof.
  intros Hw Hp. unfold start_search, try_, bind at 1, lift at 1.
  rewrite Hp. by rewrite fail_with_empty.
Qed.

Lemma start_search_posts cfg net w ids :
  outputs w = empty_outputs ->
  parse_plan_ids (PLAN_IDS cfg) = Ok ids -> ids <> [] ->
  exists out tr,
    start_search cfg net w =
      (out, logged w (Http (PostSearch (search_body cfg ids)) :: tr)) /\
    LogError NoValidPlanIds ∉ tr.
Proof.
  intros Hw Hp Hne. unfold start_search, try_, bind at 1, lift at 1.
  rewrite Hp. destruct ids as [|i ids]; [done|].
  set (body := search_body cfg (i :: ids)).
  unfold bind at 1.
  destruct (search_response net body) as [j|e].
  2:{ rewrite http_raise, fail_with_empty by done. rewrite logged_logged.
      eexists _, _. split; [reflexivity|]. not_in_list. }
  rewrite http_ok. unfold bind at 1, lift at 1.
  destruct (dict_get j "search_id" JNull) as [sid|e].
  2:{ rewrite fail_with_empty by done. rewrite logged_logged.
      eexists _, _. split; [reflexivity|]. not_in_list. }
  destruct (truthy sid); simpl.
  - unfold bind at 1, lift at 1. destruct (py_str sid) as [s|e].
    + unfold bind at 1, log_info. rewrite emit_logged. unfold ret.
      rewrite logged_logged.
      eexists _, _. split; [reflexivity|]. not_in_list.
    + rewrite fail_with_empty by done. rewrite logged_logged.
      eexists _, _. split; [reflexivity|]. not_in_list.
  - rewrite fail_with_empty by done. rewrite logged_logged.
    eexists _, _. split; [reflexivity|]. not_in_list.
Qed.

Lemma start_search_no_sid cfg net w ids kvs :
  outputs w = empty_outputs ->
  parse_plan_ids (PLAN_IDS cfg) = Ok ids -> ids <> [] ->
  search_response net (search_body cfg ids) = Ok (JDict kvs) ->
  assoc "search_id" kvs = None ->
  start_search cfg net w =
    (Ret empty_table,
     logged w [Http (PostSearch (search_body cfg ids)); LogError NoSearchId]).
Proof.
  intros Hw Hp Hne Hresp Hsid. unfold start_search, try_, bind at 1, lift at 1.
  rewrite Hp. destruct ids as [|i ids]; [done|].
  unfold bind at 1. rewrite Hresp, http_ok.
  unfold bind at 1, lift at 1, dict_get. rewrite Hsid. simpl.
  rewrite fail_with_empty by done. by rewrite logged_logged.
Qed.

(** *** The whole run *)

Lemma stage_ret b {A} (a : A) : stage_spec b (ret a).
Proof.
  intros w _. exists (Val a), []. rewrite logged_nil. split; [done|constructor].
Qed.

Lemma stage_lift {A} (r : result A) : stage_spec true (lift r).
Proof.
  intros w _. unfold lift. destruct r as [a|e].
  - exists (Val a), []. rewrite logged_nil. split; [done|constructor].
  - exists (Exc e), []. rewrite logged_nil. split; [done|]. split; [done|constructor].
Qed.

Lemma stage_emit b ev : quiet ev -> stage_spec b (emit ev).
Proof.
  intros Hq w _. exists (Val tt), [ev]. split; [done|]. by repeat constructor.
Qed.

Lemma stage_fail b {A} (m : message) :
  terminal m = true -> stage_spec b (log_error m >> @_unpack_and_return A).
Proof.
  intros Hm w Hw. exists (Ret empty_table), [LogError m].
  split; [by apply fail_with_empty|]. split; [done|].
  exists m. split; [done|]. by left.
Qed.

Lemma stage_bind b {A B} (m : M A) (k : A -> M B) :
  stage_spec b m -> (forall a, stage_spec b (k a)) -> stage_spec b (bind m k).
Proof.
  intros Hm Hk w Hw. destruct (Hm w Hw) as (out & evs & Hrun & Hout).
  unfold bind. rewrite Hrun. destruct out as [a|e|r].
  - destruct (Hk a (logged w evs) Hw) as (out2 & evs2 & Hrun2 & Hout2).
    exists out2, (evs ++ evs2). rewrite Hrun2, logged_logged. split; [done|].
    destruct out2 as [a2|e2|r2].
    + by apply Forall_app.
    + destruct Hout2 as [-> Hq]. split; [done|]. by apply Forall_app.
    + destruct Hout2 as (-> & m' & Hm' & Hin). split; [done|].
      exists m'. split; [done|]. apply elem_of_app. by right.
  - by exists (Exc e), evs.
  - by exists (Ret r), evs.
Qed.

Lemma stage_weaken {A} (m : M A) : stage_spec false m -> stage_spec true m.
Proof.
  intros Hm w Hw. destruct (Hm w Hw) as (out & evs & Hrun & Hout).
  exists out, evs. split; [done|]. destruct out; [done| |done].
  by destruct Hout.
Qed.

Lemma stage_try {A} (m : M A) (h : exn -> M A) :
  stage_spec true m -> (forall e, stage_spec false (h e)) ->
  stage_spec false (try_ m h).
Proof.
  intros Hm Hh w Hw. destruct (Hm w Hw) as (out & evs & Hrun & Hout).
  unfold try_. rewrite Hrun. destruct out as [a|e|r].
  - by exists (Val a), evs.
  - destruct Hout as [_ Hq].
    destruct (Hh e (logged w evs) Hw) as (out2 & evs2 & Hrun2 & Hout2).
    exists out2, (evs ++ evs2). rewrite Hrun2, logged_logged. split; [done|].
    destruct out2 as [a2|e2|r2].
    + by apply Forall_app.
    + by destruct Hout2.
    + destruct Hout2 as (-> & m' & Hm' & Hin). split; [done|].
      exists m'. split; [done|]. apply elem_of_app. by right.
  - by exists (Ret r), evs.
Qed.

Lemma stage_http r answer : stage_spec true (http r answer).
Proof.
  apply stage_bind; [by apply stage_emit|]. intros _. apply stage_lift.
Qed.

Ltac stage_step :=
  first
    [ apply stage_ret
    | apply stage_lift
    | apply stage_http
    | apply stage_fail; reflexivity
    | apply stage_emit; exact I
    | apply stage_bind; [|intros ?] ].

Lemma auth_stage cfg net : stage_spec false (auth cfg net).
Proof.
  unfold auth. apply stage_try; [|intros e; by apply stage_fail].
  apply stage_bind.
  - destruct (negb _); unfold log_info; repeat stage_step.
  - intros token. destruct (negb _); repeat stage_step.
Qed.

Lemma start_search_stage cfg net : stage_spec false (start_search cfg net).
Proof.
  unfold start_search. apply stage_try; [|intros e; by apply stage_fail].
  apply stage_bind; [apply stage_lift|]. intros [|i ids].
  - by apply stage_fail.
  - cbv zeta. unfold log_info. repeat stage_step.
    destruct (negb _); repeat stage_step.
Qed.

Lemma poll_loop_stage net sid n a : stage_spec true (poll_loop net sid n a).
Proof.
  revert a. induction n as [|n IH]; intros a; cbn [poll_loop].
  - apply stage_ret.
  - repeat stage_step. destruct (truthy _).
    + repeat stage_step.
    + unfold sleep. repeat stage_step. apply IH.
Qed.

Lemma poll_stage net sid : stage_spec false (poll net sid).
Proof.
  unfold poll. apply stage_try; [|intros e; by apply stage_fail].
  apply stage_bind; [apply stage_lift|]. intros _.
  apply stage_bind; [apply poll_loop_stage|].
  intros [[|p ps]|]; first [by apply stage_fail|apply stage_ret].
Qed.

Lemma fetch_loop_stage net sid parts orders :
  stage_spec true (fetch_loop net sid parts orders).
Proof.
  revert orders. induction parts as [|p ps IH]; intros orders; cbn [fetch_loop].
  - apply stage_ret.
  - repeat stage_step. apply IH.
Qed.

Lemma fetch_all_stage net sid parts : stage_spec false (fetch_all net sid parts).
Proof.
  unfold fetch_all. apply stage_try; [|intros e; by apply stage_fail].
  apply stage_bind; [apply fetch_loop_stage|]. intros orders.
  unfold log_info. repeat stage_step.
Qed.

Lemma empty_outputs_has_columns : has_columns empty_outputs.
Proof. intros name Hin. rewrite empty_outputs_lookup by done. eauto. Qed.

Lemma after_fetch_final orders : final_spec (after_fetch orders).
Proof.
  intros w Hw.
  destruct (flatten orders w) as [out w1] eqn:Hrun.
  destruct (appends_only_flatten orders _ _ _ Hrun) as [Hext Hnoret].
  assert (Hcols : has_columns (outputs w1)).
  { eapply extends_has_columns; [done|]. rewrite Hw.
    apply empty_outputs_has_columns. }
  destruct (unpack_has_columns _ Hcols) as (cols & Hun & Hlen).
  destruct Hext as [Htr _]. destruct out as [[]|e|r]; [| |by destruct (Hnoret r)].
  - rewrite (after_fetch_val _ _ _ Hrun). unfold unpacked. rewrite Hun.
    exists cols, [], w1. rewrite app_nil_r. split; [done|]. split; [done|].
    split; [done|]. left. constructor.
  - rewrite (after_fetch_exc _ _ _ _ Hrun). unfold unpacked. rewrite Hun.
    exists cols, [LogError (FlattenError e)], (logged w1 [LogError (FlattenError e)]).
    split; [done|]. split; [simpl; by rewrite Htr|]. split; [done|].
    left. by repeat constructor.
Qed.

Lemma final_bind {A} (m : M A) (k : A -> M unit) :
  stage_spec false m -> (forall a, final_spec (k a)) -> final_spec (bind m k).
Proof.
  intros Hm Hk w Hw. destruct (Hm w Hw) as (out & evs & Hrun & Hout).
  unfold bind. rewrite Hrun. destruct out as [a|e|r].
  - destruct (Hk a (logged w evs) Hw)
      as (cols & evs2 & w' & Hrun2 & Htr & Hlen & Hcase).
    exists cols, (evs ++ evs2), w'. split; [done|].
    split; [by rewrite Htr; simpl; rewrite app_assoc|]. split; [done|].
    destruct Hcase as [Hq| ->]; [left; by apply Forall_app|by right].
  - by destruct Hout.
  - destruct Hout as [-> _]. exists empty_table, evs, (logged w evs).
    split; [done|]. split; [done|]. split; [done|]. by right.
Qed.

Lemma main_final cfg net : final_spec (main cfg net).
Proof.
  unfold main. apply final_bind; [apply auth_stage|]. intros _.
  apply final_bind; [apply start_search_stage|]. intros sid.
  unfold after_search.
  apply final_bind; [apply poll_stage|]. intros parts.
  apply final_bind; [apply fetch_all_stage|]. intros orders.
  apply after_fetch_final.
Qed.

(** C7, with the 70 columns the schema has. Every call of [main] returns
    a tuple of 70 columns and lets no exception escape; when the error
    line of the authentication, submit, polling or fetch stage was logged,
    every one of the 70 columns is empty. *)
Theorem pipeline_failure_table (cfg : config) (net : network) :
  exists cols tr,
    call_main cfg net = (Ok cols, tr) /\
    length cols = 70%nat /\
    ((exists m, terminal m = true /\ LogError m ∈ tr) -> cols = empty_table).
Proof.
  destruct (main_final cfg net start eq_refl)
    as (cols & evs & w' & Hrun & Htr & Hlen & Hcase).
  exists cols, (trace w'). unfold call_main. rewrite Hrun.
  split; [done|]. split; [done|].
  intros (m & Hm & Hin). destruct Hcase as [Hq|Hc]; [|done].
  rewrite Htr in Hin. simpl in Hin.
  rewrite Forall_forall in Hq. apply Hq in Hin. simpl in Hin. congruence.
Qed.

(** *** Authentication *)

Lemma auth_bearer cfg net w :
  strip (BEARER cfg) <> "" ->
  is_ok (py_str (JStr (strip (BEARER cfg)))) ->
  auth cfg net w = (Val (JStr (strip (BEARER cfg))), w).
Proof.
  intros Hne [s Hs].
  assert (Heqb : String.eqb (strip (BEARER cfg)) "" = false)
    by (by apply String.eqb_neq).
  unfold auth, try_, bind, truthy. rewrite Heqb. simpl. rewrite Heqb. simpl.
  unfold ret, lift. rewrite Hs. reflexivity.
Qed.

Lemma auth_login cfg net w kvs tok :
  strip (BEARER cfg) = "" ->
  token_response net = Ok (JDict kvs) ->
  assoc "access_token" kvs = Some tok ->
  truthy tok = true -> is_ok (py_str tok) ->
  auth cfg net w = (Val tok, logged w [LogInfo LoggingIn; Http PostToken]).
Proof.
  intros Hb Hresp Htok Htrue [s Hs]. unfold auth, try_. rewrite Hb, Hresp.
  cbn [truthy String.eqb negb]. unfold bind at 1. unfold bind at 1.
  unfold log_info. rewrite emit_logged. unfold bind at 1.
  rewrite http_ok, logged_logged. unfold lift at 1, dict_get. rewrite Htok.
  rewrite Htrue. cbn [negb]. unfold bind, lift, ret. rewrite Hs. reflexivity.
Qed.

Lemma auth_raise cfg net w e :
  outputs w = empty_outputs ->
  strip (BEARER cfg) = "" ->
  token_response net = Raise e ->
  auth cfg net w =
    (Ret empty_table,
     logged w [LogInfo LoggingIn; Http PostToken; LogError (AuthError e)]).
Proof.
  intros Hw Hb Hresp. unfold auth, try_. rewrite Hb, Hresp.
  cbn [truthy String.eqb negb]. unfold bind at 1. unfold bind at 1.
  unfold log_info. rewrite emit_logged. unfold bind at 1.
  rewrite http_raise, logged_logged.
  rewrite fail_with_empty by done. by rewrite logged_logged.
Qed.

Lemma auth_no_token cfg net w kvs :
  outputs w = empty_outputs ->
  strip (BEARER cfg) = "" ->
  token_response net = Ok (JDict kvs) ->
  truthy (default (JStr "") (assoc "access_token" kvs)) = false ->
  auth cfg net w =
    (Ret empty_table,
     logged w [LogInfo LoggingIn; Http PostToken; LogError AuthFailedNoToken]).
Proof.
  intros Hw Hb Hresp Hfalse. unfold auth, try_. rewrite Hb, Hresp.
  cbn [truthy String.eqb negb]. unfold bind at 1. unfold bind at 1.
  unfold log_info. rewrite emit_logged. unfold bind at 1.
  rewrite http_ok, logged_logged. unfold lift at 1, dict_get.
  change (match assoc "access_token" kvs with Some x => x | None => JStr "" end)
    with (default (JStr "") (assoc "access_token" kvs)).
  rewrite Hfalse. cbn [negb].
  rewrite fail_with_empty by done. by rewrite logged_logged.
Qed.

(** X1. A token given in the settings is used as it is, trimmed, without
    any request or log line; without one, the token is the access_token
    of the answer to the single token request. *)
Theorem auth_token_source (cfg : config) (net : network) (w : world) :
  (strip (BEARER cfg) <> "" ->
   is_ok (py_str (JStr (strip (BEARER cfg)))) ->
   auth cfg net w = (Val (JStr (strip (BEARER cfg))), w)) /\
  (strip (BEARER cfg) = "" ->
   forall kvs tok,
     token_response net = Ok (JDict kvs) ->
     assoc "access_token" kvs = Some tok ->
     truthy tok = true -> is_ok (py_str tok) ->
     auth cfg net w =
       (Val tok, logged w [LogInfo LoggingIn; Http PostToken])).
Proof.
  split.
  - apply auth_bearer.
  - intros Hb kvs tok. by apply auth_login.
Qed.

(** X2. When the token request fails, or its answer has no access_token
    or an empty one, the run stops there: it logs the failure and returns
    the empty table, and no search is posted. *)
Theorem auth_failure_stops_run (cfg : config) (net : network) (w : world) :
  outputs w = empty_outputs ->
  strip (BEARER cfg) = "" ->
  (forall e,
     token_response net = Raise e ->
     main cfg net w =
       (Ret empty_table,
        logged w [LogInfo LoggingIn; Http PostToken;
                  LogError (AuthError e)])) /\
  (forall kvs,
     token_response net = Ok (JDict kvs) ->
     truthy (default (JStr "") (assoc "access_token" kvs)) = false ->
     main cfg net w =
       (Ret empty_table,
        logged w [LogInfo LoggingIn; Http PostToken;
                  LogError AuthFailedNoToken])).
Proof.
  intros Hw Hb. split.
  - intros e He. unfold main.
    by rewrite (bind_ret _ _ _ _ _ (auth_raise cfg net w e Hw Hb He)).
  - intros kvs Hresp Hfalse. unfold main.
    by rewrite (bind_ret _ _ _ _ _ (auth_no_token cfg net w kvs Hw Hb Hresp Hfalse)).
Qed.

(** *** Search id *)

Lemma start_search_ok cfg net w ids kvs sid :
  parse_plan_ids (PLAN_IDS cfg) = Ok ids -> ids <> [] ->
  search_response net (search_body cfg ids) = Ok (JDict kvs) ->
  assoc "search_id" kvs = Some sid ->
  truthy sid = true -> is_ok (py_str sid) ->
  start_search cfg net w =
    (Val sid,
     logged w [Http (PostSearch (search_body cfg ids)); LogInfo (SearchId sid)]).
Proof.
  intros Hp Hne Hresp Hsid Htrue [s Hs].
  unfold start_search, try_, bind at 1, lift at 1.
  rewrite Hp. destruct ids as [|i ids]; [done|].
  unfold bind at 1. rewrite Hresp, http_ok.
  unfold bind at 1, lift at 1, dict_get. rewrite Hsid, Htrue. cbn [negb].
  unfold bind at 1, lift at 1. rewrite Hs.
  unfold bind at 1, log_info. rewrite emit_logged. unfold ret.
  by rewrite logged_logged.
Qed.

(** X3. A search_id that is there but null, zero or empty counts as
    missing: the submit logs that there is no search id and the run
    returns the empty table without polling. *)
Theorem falsy_search_id_is_missing
  (cfg : config) (net : network) (w : world) (ids : list Z)
  (kvs : list (string * json)) :
  outputs w = empty_outputs ->
  parse_plan_ids (PLAN_IDS cfg) = Ok ids -> ids <> [] ->
  search_response net (search_body cfg ids) = Ok (JDict kvs) ->
  truthy (default JNull (assoc "search_id" kvs)) = false ->
  start_search cfg net w =
    (Ret empty_table,
     logged w [Http (PostSearch (search_body cfg ids)); LogError NoSearchId]).
Proof.
  intros Hw Hp Hne Hresp Hfalse.
  unfold start_search, try_, bind at 1, lift at 1.
  rewrite Hp. destruct ids as [|i ids]; [done|].
  unfold bind at 1. rewrite Hresp, http_ok.
  unfold bind at 1, lift at 1, dict_get.
  change (match assoc "search_id" kvs with Some x => x | None => JNull end)
    with (default JNull (assoc "search_id" kvs)).
  rewrite Hfalse. cbn [negb].
  rewrite fail_with_empty by done. by rewrite logged_logged.
Qed.

(** *** Fetching the partitions *)

Lemma fetch_loop_step net sid p ps acc w :
  fetch_loop net sid (p :: ps) acc w =
    match page_data (page_response net sid p) with
    | Ok more =>
        fetch_loop net sid ps (acc ++ more) (logged w [Http (GetPage sid p)])
    | Raise e => (Exc e, logged w [Http (GetPage sid p)])
    end.
Proof.
  cbn [fetch_loop]. unfold page_data, bind at 1.
  destruct (page_response net sid p) as [j|e]; [|by rewrite http_raise].
  rewrite http_ok. unfold bind at 1, lift at 1. cbn [rbind].
  destruct (dict_get j "data" (JList [])) as [data|e]; [|done].
  unfold bind at 1, lift at 1. cbn [rbind].
  by destruct (py_iter data).
Qed.

Lemma fetch_loop_ok net sid (f : Z -> list json) parts acc w :
  (forall p, p ∈ parts -> page_data (page_response net sid p) = Ok (f p)) ->
  fetch_loop net sid parts acc w =
    (Val (acc ++ concat (map f parts)), logged w (page_requests sid parts)).
Proof.
  revert acc w. induction parts as [|p ps IH]; intros acc w Hpages.
  - simpl. unfold ret. by rewrite app_nil_r, logged_nil.
  - rewrite fetch_loop_step, (Hpages p) by (by left).
    rewrite IH by (intros q Hq; apply Hpages; by right).
    rewrite logged_logged. simpl. by rewrite app_assoc.
Qed.

Lemma fetch_loop_abort net sid (f : Z -> list json) done p rest acc w e :
  (forall q, q ∈ done -> page_data (page_response net sid q) = Ok (f q)) ->
  page_data (page_response net sid p) = Raise e ->
  fetch_loop net sid (done ++ p :: rest) acc w =
    (Exc e, logged w (page_requests sid done ++ [Http (GetPage sid p)])).
Proof.
  revert acc w. induction done as [|q qs IH]; intros acc w Hpages Hbad.
  - cbn [app]. by rewrite fetch_loop_step, Hbad.
  - cbn [app]. rewrite fetch_loop_step, (Hpages q) by (by left).
    rewrite IH; [|intros q' Hq'; apply Hpages; by right|done].
    by rewrite logged_logged.
Qed.

Lemma fetch_all_ok net sid (f : Z -> list json) parts w :
  (forall p, p ∈ parts -> page_data (page_response net sid p) = Ok (f p)) ->
  is_ok (py_str (JInt (Z.of_nat (length (concat (map f parts)))))) ->
  fetch_all net sid parts w =
    (Val (concat (map f parts)),
     logged w (page_requests sid parts ++
               [LogInfo (Fetched (length (concat (map f parts))))])).
Proof.
  intros Hpages [s Hs]. unfold fetch_all, try_. unfold bind at 1.
  rewrite (fetch_loop_ok net sid f parts [] w Hpages). cbn [app].
  unfold bind at 1, lift at 1. rewrite Hs.
  unfold bind at 1, log_info. rewrite emit_logged. unfold ret.
  by rewrite logged_logged.
Qed.

(** X4. The orders fetched are, in the order of the partitions, what the
    data of each page holds; each partition is requested once, in order,
    and the number of orders is logged after the last page. A page
    without data adds nothing. *)
Theorem fetch_all_collects
  (net : network) (sid : json) (f : Z -> list json) (parts : list Z)
  (w : world) :
  (forall p, p ∈ parts -> page_data (page_response net sid p) = Ok (f p)) ->
  is_ok (py_str (JInt (Z.of_nat (length (concat (map f parts)))))) ->
  fetch_all net sid parts w =
    (Val (concat (map f parts)),
     logged w (page_requests sid parts ++
               [LogInfo (Fetched (length (concat (map f parts))))])) /\
  page_data (Ok (JDict [])) = Ok [].
Proof.
  intros Hpages Hs. split; [by apply fetch_all_ok|reflexivity].
Qed.

(** X5. When a page cannot be read (the request fails, the answer is not
    an object, or its data is null or a number), the fetch stops at that
    page: the pages after it are not requested, the orders of the pages
    before it are dropped and the run returns the empty table. *)
Theorem fetch_failure_aborts
  (net : network) (sid : json) (f : Z -> list json)
  (done rest : list Z) (p : Z) (w : world) (e : exn) :
  outputs w = empty_outputs ->
  (forall q, q ∈ done -> page_data (page_response net sid q) = Ok (f q)) ->
  page_data (page_response net sid p) = Raise e ->
  fetch_all net sid (done ++ p :: rest) w =
    (Ret empty_table,
     logged w (page_requests sid done ++
               [Http (GetPage sid p); LogError (PartitionFetchError e)])).
Proof.
  intros Hw Hpages Hbad. unfold fetch_all, try_. unfold bind at 1.
  rewrite (fetch_loop_abort net sid f done p rest [] w e Hpages Hbad).
  rewrite fail_with_empty by done.
  rewrite logged_logged, <- app_assoc. reflexivity.
Qed.

(** *** A poll that fails *)

Lemma poll_loop_request_raise net sid n a w e :
  poll_response net sid a = Raise e ->
  poll_loop net sid (S n) a w = (Exc e, logged w [Http (GetPoll sid)]).
Proof.
  intros Hj. cbn [poll_loop]. rewrite Hj. unfold bind at 1.
  by rewrite http_raise.
Qed.

Lemma poll_loop_not_dict net sid n a w j :
  poll_response net sid a = Ok j -> isinstance_dict j = false ->
  poll_loop net sid (S n) a w =
    (Exc AttributeError, logged w [Http (GetPoll sid)]).
Proof.
  intros Hj Hd. cbn [poll_loop]. rewrite Hj. unfold bind at 1.
  rewrite http_ok. unfold bind at 1, lift at 1.
  by destruct j.
Qed.

Lemma poll_attempt_exc net sid w k e :
  is_ok (py_str sid) -> outputs w = empty_outputs -> (k < 60)%nat ->
  (forall i, (i < k)%nat -> pending (poll_response net sid i)) ->
  (forall n w', poll_loop net sid (S n) k w' =
                  (Exc e, logged w' [Http (GetPoll sid)])) ->
  after_search net sid w =
    (Ret empty_table,
     logged w (polls sid k ++
               [Http (GetPoll sid); LogError (PollingError e)])).
Proof.
  intros [s Hs] Hw Hk Hpend Hstep. unfold after_search.
  erewrite bind_ret; [done|]. unfold poll, try_.
  unfold bind at 1. unfold lift at 1. rewrite Hs.
  unfold bind at 1.
  replace 60%nat with (k + S (59 - k))%nat at 1 by lia.
  rewrite (poll_loop_pending net sid k _ 0 w) by exact Hpend.
  rewrite Hstep. rewrite fail_with_empty by done.
  rewrite !logged_logged, <- ?app_assoc. reflexivity.
Qed.

(** X6. A poll that fails is not tried again: when the request of a poll
    raises, or its answer is not an object, polling ends at once with the
    polling error, no later poll and no page request is made, and the run
    returns the empty table. *)
Theorem failed_poll_is_not_retried
  (net : network) (sid : json) (w : world) (k : nat) (e : exn) :
  is_ok (py_str sid) -> outputs w = empty_outputs -> (k < 60)%nat ->
  (forall i, (i < k)%nat -> pending (poll_response net sid i)) ->
  poll_response net sid k = Raise e \/
  (exists j, poll_response net sid k = Ok j /\
             isinstance_dict j = false /\ e = AttributeError) ->
  after_search net sid w =
    (Ret empty_table,
     logged w (polls sid k ++
               [Http (GetPoll sid); LogError (PollingError e)])).
Proof.
  intros Hs Hw Hk Hpend Hbad. apply poll_attempt_exc; try done.
  intros n w'. destruct Hbad as [He|(j & Hj & Hd & ->)].
  - by apply poll_loop_request_raise.
  - by eapply poll_loop_not_dict.
Qed.

(** *** The partitions that are fetched *)

Lemma normalise_parts_nonneg nums : Forall (fun n => 0 <= n) (normalise_parts nums).
Proof.
  unfold normalise_parts.
  pose proof (sorted_set_elem (List.filter (fun p => 0 <=? p) nums)) as He.
  destruct (sorted_set _) as [|x l]; [by repeat constructor|].
  apply Forall_forall. intros n Hn. by apply He, filter_nonneg_elem in Hn as [_ ?].
Qed.

(** X7. Whatever partition_info holds, the partitions that come out of
    its resolution are never empty, never negative, and strictly
    ascending (so no page is requested twice). *)
Theorem resolved_partitions_invariant (pinfo : json) (parts : list Z) :
  resolve_partitions pinfo = Ok parts ->
  parts <> [] /\ Forall (fun n => 0 <= n) parts /\ StronglySorted Z.lt parts.
Proof.
  intros Hres. split; [by eapply resolve_partitions_nonempty|].
  unfold resolve_partitions in Hres.
  destruct (py_iter pinfo) as [entries|]; [|done]. simpl in Hres.
  destruct (rmapM partition_number entries) as [nums|]; [|done]. simpl in Hres.
  injection Hres as <-. split; [apply normalise_parts_nonneg|].
  apply normalise_parts_spec.
Qed.

(** *** What a row holds *)

Lemma row_cells_lookup_column o it i col cell :
  row_cells o it !! i = Some (col, cell) -> variable_names !! i = Some col.
Proof.
  intros Hi. rewrite <- (row_cells_columns o it), list_lookup_fmap, Hi. done.
Qed.

Lemma flatten_row_cell o it w w' i col cell :
  has_columns (outputs w) ->
  flatten_row o it w = (Val tt, w') ->
  row_cells o it !! i = Some (col, cell) ->
  exists s c, cell = Ok s /\ outputs w !! col = Some c /\
    outputs w' !! col = Some (c ++ [s]).
Proof.
  intros Hcols Hrun Hi. rewrite flatten_row_spec in Hrun by done.
  apply pair_equal_spec in Hrun as [Hout <-].
  destruct (ok_prefix_elem _ col cell Hout) as (s & Hs & Hin).
  { by eapply list_elem_of_lookup_2. }
  destruct (Hcols col) as [c Hc].
  { eapply list_elem_of_lookup_2, row_cells_lookup_column, Hi. }
  exists s, c. split; [done|]. split; [done|]. cbn [outputs].
  apply appended_cell; [apply ok_prefix_row_NoDup|done..].
Qed.

(** X8. A pass of the inner loop that completes leaves the trace alone
    and appends to each column, at its end, the text read at the path of
    that column; so plan_code_barcode holds the cd_barcode of the item's
    plan_code and purchase_city the city_name of the order's
    purchase_location_source. *)
Theorem flatten_row_cells (o it : json) (w w' : world) :
  has_columns (outputs w) ->
  flatten_row o it w = (Val tt, w') ->
  trace w' = trace w /\
  (forall i col cell,
     row_cells o it !! i = Some (col, cell) ->
     variable_names !! i = Some col /\
     exists s c, cell = Ok s /\ outputs w !! col = Some c /\
       outputs w' !! col = Some (c ++ [s])) /\
  (exists s c, _g it ["plan_code"; "cd_barcode"] = Ok s /\
     outputs w !! "plan_code_barcode" = Some c /\
     outputs w' !! "plan_code_barcode" = Some (c ++ [s])) /\
  (exists s c, _g o ["purchase_location_source"; "city_name"] = Ok s /\
     outputs w !! "purchase_city" = Some c /\
     outputs w' !! "purchase_city" = Some (c ++ [s])).
Proof.
  intros Hcols Hrun. split; [|split; [|split]].
  - rewrite flatten_row_spec in Hrun by done.
    by apply pair_equal_spec in Hrun as [_ <-].
  - intros i col cell Hi. split; [by eapply row_cells_lookup_column|].
    by eapply flatten_row_cell.
  - apply (flatten_row_cell o it w w' 52%nat); [done..|reflexivity].
  - apply (flatten_row_cell o it w w' 17%nat); [done..|reflexivity].
Qed.

Lemma item_cells_empty o :
  Forall (fun c => c.2 = Ok "") (drop 31 (row_cells o (JDict []))).
Proof. unfold row_cells. cbn [drop]. repeat constructor. Qed.

(** X9. An order whose order_items is absent, null, an empty list or any
    other empty value is flattened as if it had the one item {}: its row
    has the empty string in all 39 columns read from the item, from
    item_id to venue_timezone. *)
Theorem itemless_order_row (kvs : list (string * json)) :
  truthy (default JNull (assoc "order_items" kvs)) = false ->
  order_items (JDict kvs) = Ok [JDict []] /\
  forall i col cell,
    (31 <= i)%nat ->
    row_cells (JDict kvs) (JDict []) !! i = Some (col, cell) ->
    cell = Ok "".
Proof.
  intros Hfalse. split.
  - unfold order_items, dict_get, py_or. cbn [rbind].
    change (match assoc "order_items" kvs with Some x => x | None => JNull end)
      with (default JNull (assoc "order_items" kvs)).
    by rewrite Hfalse.
  - intros i col cell Hi Hcell.
    pose proof (item_cells_empty (JDict kvs)) as Hall.
    rewrite Forall_lookup in Hall.
    apply (Hall (i - 31)%nat (col, cell)).
    rewrite lookup_drop. by replace (31 + (i - 31))%nat with i by lia.
Qed.

(** *** Flatten as a whole *)

(** X10. Flatten only appends: however it ends, it leaves the trace as it
    was, it does not return from the run, and every column afterwards
    starts with the cells it had before. *)
Theorem flatten_only_appends
  (orders : list json) (w w' : world) (out : outcome unit) :
  flatten orders w = (out, w') ->
  trace w' = trace w /\
  (forall r, out <> Ret r) /\
  forall name c, outputs w !! name = Some c ->
    exists c', outputs w' !! name = Some c' /\ c `prefix_of` c'.
Proof.
  intros Hrun. destruct (appends_only_flatten orders _ _ _ Hrun) as [[Ht Hc] Hr].
  done.
Qed.

(** X11. Flattening two lists of orders one after the other is flattening
    their concatenation: the second list starts from the table the first
    one left, and is not looked at when the first one raises. *)
Theorem flatten_concat (a b : list json) (w w1 : world) :
  (flatten a w = (Val tt, w1) -> flatten (a ++ b) w = flatten b w1) /\
  (forall e, flatten a w = (Exc e, w1) -> flatten (a ++ b) w = (Exc e, w1)).
Proof.
  unfold flatten. split.
  - intros Ha. by rewrite for_each_app, (bind_val _ _ _ _ _ Ha).
  - intros e Ha. by rewrite for_each_app, (bind_exc _ _ _ _ _ Ha).
Qed.

(** *** The returned tuple *)

Lemma rmapM_column_missing t l name :
  name ∈ l -> t !! name = None -> rmapM (column t) l = Raise KeyError.
Proof.
  intros Hin Hnone. induction l as [|a l IH]; [by apply elem_of_nil in Hin|].
  simpl. unfold column at 1. destruct (t !! a) eqn:Ha.
  - apply elem_of_cons in Hin as [->|Hin]; [congruence|].
    simpl. by rewrite IH.
  - done.
Qed.

(** X12. The tuple returned has the 70 columns in the order of the
    schema, each as it stands in the table; a table that lacks one of the
    columns cannot be unpacked (KeyError). *)
Theorem unpack_in_schema_order (t : gmap string (list string)) :
  (has_columns t ->
   exists cols, unpack t = Ok cols /\ length cols = 70%nat /\
     forall i name, variable_names !! i = Some name -> cols !! i = t !! name) /\
  (forall name, name ∈ variable_names -> t !! name = None ->
     unpack t = Raise KeyError).
Proof.
  split.
  - intros Hcols. destruct (unpack_has_columns t Hcols) as (cols & Hun & Hlen).
    exists cols. split; [done|]. split; [done|].
    intros i name Hi. by eapply unpack_lookup.
  - intros name Hin Hnone. unfold unpack.
    by rewrite (rmapM_column_missing t variable_names name Hin Hnone).
Qed.

Lemma rect_bind {A} (m : M A) (k : A -> M unit) :
  stage_spec false m -> (forall a, rect_spec (k a)) -> rect_spec (bind m k).
Proof.
  intros Hm Hk w Hw. destruct (Hm w Hw) as (out & evs & Hrun & Hout).
  unfold bind. rewrite Hrun. destruct out as [a|e|r].
  - apply (Hk a (logged w evs) Hw).
  - by destruct Hout.
  - destruct Hout as [-> _]. exists empty_table, 0%nat, (logged w evs).
    split; [done|]. split; [done|]. unfold empty_table.
    apply Forall_replicate. done.
Qed.

Lemma after_fetch_rect orders :
  (forall v, is_ok (py_str v)) -> (forall v, is_ok (json_dumps v)) ->
  rect_spec (after_fetch orders).
Proof.
  intros Hs Hd w Hw.
  assert (Hal : aligned 0 (outputs w)).
  { rewrite Hw. apply start_aligned. }
  destruct (flatten orders w) as [out w1] eqn:Hrun.
  destruct (flatten_stays_aligned orders w out w1 0%nat Hs Hd Hal Hrun)
    as [n Hn].
  destruct (unpack_aligned _ _ Hn) as (cols & Hun & Hlen & Hall).
  destruct (appends_only_flatten orders _ _ _ Hrun) as [_ Hnoret].
  destruct out as [[]|e|r]; [| |by destruct (Hnoret r)].
  - rewrite (after_fetch_val _ _ _ Hrun). unfold unpacked. rewrite Hun.
    by exists cols, n, w1.
  - rewrite (after_fetch_exc _ _ _ _ Hrun). unfold unpacked. rewrite Hun.
    by eexists cols, n, _.
Qed.

(** X13. When [str] and [json.dumps] return, every call of [main],
    whatever the settings and the answers of the network, returns 70
    columns of one and the same length. *)
Theorem returned_table_is_rectangular (cfg : config) (net : network) :
  (forall v, is_ok (py_str v)) -> (forall v, is_ok (json_dumps v)) ->
  exists cols tr n,
    call_main cfg net = (Ok cols, tr) /\
    length cols = 70%nat /\ Forall (fun c => length c = n) cols.
Proof.
  intros Hs Hd.
  assert (Hmain : rect_spec (main cfg net)).
  { unfold main. apply rect_bind; [apply auth_stage|]. intros _.
    apply rect_bind; [apply start_search_stage|]. intros sid.
    unfold after_search.
    apply rect_bind; [apply poll_stage|]. intros parts.
    apply rect_bind; [apply fetch_all_stage|]. intros orders.
    by apply after_fetch_rect. }
  destruct (Hmain start eq_refl) as (cols & n & w' & Hrun & Hlen & Hall).
  exists cols, (trace w'), n. unfold call_main. by rewrite Hrun.
Qed.

(** *** A run that succeeds *)

Lemma main_success cfg net w kvs tok ids skvs sid k j pinfo parts
  (f : Z -> list json) :
  (forall v, is_ok (py_str v)) -> (forall v, is_ok (json_dumps v)) ->
  outputs w = empty_outputs ->
  strip (BEARER cfg) = "" ->
  token_response net = Ok (JDict kvs) ->
  assoc "access_token" kvs = Some tok -> truthy tok = true ->
  parse_plan_ids (PLAN_IDS cfg) = Ok ids -> ids <> [] ->
  search_response net (search_body cfg ids) = Ok (JDict skvs) ->
  assoc "search_id" skvs = Some sid -> truthy sid = true ->
  (k < 60)%nat ->
  (forall i, (i < k)%nat -> pending (poll_response net sid i)) ->
  poll_response net sid k = Ok j ->
  dict_get j "partition_info" JNull = Ok pinfo ->
  truthy pinfo = true ->
  resolve_partitions pinfo = Ok parts ->
  (forall p, p ∈ parts -> page_data (page_response net sid p) = Ok (f p)) ->
  Forall order_shaped (concat (map f parts)) ->
  exists cols w',
    main cfg net w = (Ret cols, w') /\
    trace w' =
      trace w ++
      [LogInfo LoggingIn; Http PostToken;
       Http (PostSearch (search_body cfg ids)); LogInfo (SearchId sid)] ++
      polls sid k ++ [Http (GetPoll sid)] ++ page_requests sid parts ++
      [LogInfo (Fetched (length (concat (map f parts))))] /\
    length cols = 70%nat /\
    Forall (fun c => length c = row_count (concat (map f parts))) cols.
Proof.
  intros Hs Hd Hw Hb Htok Hacc Htt Hp Hne Hsr Hsid Hst Hk Hpend Hj Hget Hpt
    Hres Hpages Hsh.
  set (orders := concat (map f parts)).
  unfold main.
  rewrite (bind_val _ _ _ _ _
             (auth_login cfg net w kvs tok Hb Htok Hacc Htt (Hs tok))).
  rewrite (bind_val _ _ _ _ _
             (start_search_ok cfg net _ ids skvs sid Hp Hne Hsr Hsid Hst (Hs sid))).
  unfold after_search.
  rewrite (bind_val _ _ _ _ _
             (poll_found net sid _ k j pinfo parts (Hs sid) Hk Hpend Hj Hget Hpt Hres)).
  rewrite (bind_val _ _ _ _ _
             (fetch_all_ok net sid f parts _ Hpages (Hs _))).
  fold orders. rewrite !logged_logged.
  set (evs := _ ++ _). set (w4 := logged w evs).
  assert (Hal : aligned 0 (outputs w4)).
  { unfold w4. cbn [outputs logged]. rewrite Hw. apply start_aligned. }
  destruct (flatten_val Hs Hd orders w4 0%nat Hsh Hal) as (w' & Hrun & Hal' & Htr).
  destruct (unpack_aligned _ _ Hal') as (cols & Hun & Hlen & Hall).
  exists cols, w'. rewrite (after_fetch_val _ _ _ Hrun). unfold unpacked.
  rewrite Hun. split; [done|]. split; [|done].
  rewrite Htr. unfold w4, evs. cbn [trace logged].
  rewrite <- ?app_assoc. reflexivity.
Qed.

(** X14. A run in which every stage succeeds (the token is issued, the
    search is accepted, a poll reports the partitions and every page can
    be read) makes its requests in this order: the token, the search,
    the polls, then each partition once; and, the orders being shaped as
    the data model has them, it returns 70 columns whose length is the sum
    over all the orders of all the pages of max(1, number of items). *)
Theorem successful_run_rows
  (cfg : config) (net : network) (kvs skvs : list (string * json))
  (tok sid j pinfo : json) (ids parts : list Z) (k : nat)
  (f : Z -> list json) :
  (forall v, is_ok (py_str v)) -> (forall v, is_ok (json_dumps v)) ->
  strip (BEARER cfg) = "" ->
  token_response net = Ok (JDict kvs) ->
  assoc "access_token" kvs = Some tok -> truthy tok = true ->
  parse_plan_ids (PLAN_IDS cfg) = Ok ids -> ids <> [] ->
  search_response net (search_body cfg ids) = Ok (JDict skvs) ->
  assoc "search_id" skvs = Some sid -> truthy sid = true ->
  (k < 60)%nat ->
  (forall i, (i < k)%nat -> pending (poll_response net sid i)) ->
  poll_response net sid k = Ok j ->
  dict_get j "partition_info" JNull = Ok pinfo ->
  truthy pinfo = true ->
  resolve_partitions pinfo = Ok parts ->
  (forall p, p ∈ parts -> page_data (page_response net sid p) = Ok (f p)) ->
  Forall order_shaped (concat (map f parts)) ->
  exists cols,
    call_main cfg net =
      (Ok cols,
       [LogInfo LoggingIn; Http PostToken;
        Http (PostSearch (search_body cfg ids)); LogInfo (SearchId sid)] ++
       polls sid k ++ [Http (GetPoll sid)] ++ page_requests sid parts ++
       [LogInfo (Fetched (length (concat (map f parts))))]) /\
    length cols = 70%nat /\
    Forall (fun c => length c = row_count (concat (map f parts))) cols.
Proof.
  intros Hs Hd Hb Htok Hacc Htt Hp Hne Hsr Hsid Hst Hk Hpend Hj Hget Hpt
    Hres Hpages Hsh.
  destruct (main_success cfg net start kvs tok ids skvs sid k j pinfo parts f
              Hs Hd eq_refl Hb Htok Hacc Htt Hp Hne Hsr Hsid Hst Hk Hpend Hj
              Hget Hpt Hres Hpages Hsh)
    as (cols & w' & Hrun & Htr & Hlen & Hall).
  exists cols. unfold call_main. rewrite Hrun, Htr. done.
Qed.

(** *** How many polls a run makes *)

Section Budget.

Variable P : event -> bool.
Hypothesis P_log_info : forall m, P (LogInfo m) = false.
Hypothesis P_log_error : forall m, P (LogError m) = false.
Hypothesis P_token : P (Http PostToken) = false.
Hypothesis P_search : forall body, P (Http (PostSearch body)) = false.
Hypothesis P_page : forall sid p, P (Http (GetPage sid p)) = false.
Hypothesis P_poll_or_sleep :
  forall sid secs,
    (weight P (Http (GetPoll sid)) + weight P (Sleep secs) <= 1)%nat.

Lemma count_events_app evs1 evs2 :
  count_events P (evs1 ++ evs2) =
    (count_events P evs1 + count_events P evs2)%nat.
Proof. unfold count_events. by rewrite List.filter_app, length_app. Qed.

Lemma adds_ret {A} (a : A) : adds_at_most P 0 (ret a).
Proof.
  intros w out w' [= <- <-]. exists []. by rewrite app_nil_r.
Qed.

Lemma adds_lift {A} (r : result A) : adds_at_most P 0 (lift r).
Proof.
  intros w out w'. unfold lift.
  destruct r; intros [= <- <-]; exists []; by rewrite app_nil_r.
Qed.

Lemma adds_emit ev : adds_at_most P (weight P ev) (emit ev).
Proof.
  intros w out w' [= <- <-]. exists [ev]. split; [done|].
  unfold count_events, weight. simpl. by destruct (P ev).
Qed.

Lemma adds_le n n' {A} (m : M A) :
  (n <= n')%nat -> adds_at_most P n m -> adds_at_most P n' m.
Proof.
  intros Hle Hm w out w' Hrun. destruct (Hm _ _ _ Hrun) as (evs & Ht & Hc).
  exists evs. split; [done|lia].
Qed.

Lemma adds_bind n1 n2 {A B} (m : M A) (k : A -> M B) :
  adds_at_most P n1 m -> (forall a, adds_at_most P n2 (k a)) ->
  adds_at_most P (n1 + n2) (bind m k).
Proof.
  intros Hm Hk w out w'. unfold bind.
  destruct (m w) as [[a|e|r] w1] eqn:Hrun;
    destruct (Hm _ _ _ Hrun) as (evs1 & Ht1 & Hc1).
  - intros Hrun2. destruct (Hk _ _ _ _ Hrun2) as (evs2 & Ht2 & Hc2).
    exists (evs1 ++ evs2). rewrite Ht2, Ht1, app_assoc, count_events_app.
    split; [done|lia].
  - intros [= <- <-]. exists evs1. split; [done|lia].
  - intros [= <- <-]. exists evs1. split; [done|lia].
Qed.

Lemma adds_try n1 n2 {A} (m : M A) (h : exn -> M A) :
  adds_at_most P n1 m -> (forall e, adds_at_most P n2 (h e)) ->
  adds_at_most P (n1 + n2) (try_ m h).
Proof.
  intros Hm Hh w out w'. unfold try_.
  destruct (m w) as [[a|e|r] w1] eqn:Hrun;
    destruct (Hm _ _ _ Hrun) as (evs1 & Ht1 & Hc1).
  - intros [= <- <-]. exists evs1. split; [done|lia].
  - intros Hrun2. destruct (Hh _ _ _ _ Hrun2) as (evs2 & Ht2 & Hc2).
    exists (evs1 ++ evs2). rewrite Ht2, Ht1, app_assoc, count_events_app.
    split; [done|lia].
  - intros [= <- <-]. exists evs1. split; [done|lia].
Qed.

Lemma adds_unpack {A} : adds_at_most P 0 (@_unpack_and_return A).
Proof.
  intros w out w'. unfold _unpack_and_return.
  destruct (unpack (outputs w)); intros [= <- <-]; exists [];
    by rewrite app_nil_r.
Qed.

Lemma adds_fail {A} (m : message) :
  adds_at_most P 0 (log_error m >> @_unpack_and_return A).
Proof.
  change 0%nat with (0 + 0)%nat. apply adds_bind; [|intros _; apply adds_unpack].
  unfold log_error. eapply adds_le; [|apply adds_emit].
  unfold weight. by rewrite P_log_error.
Qed.

Lemma adds_log_info (m : message) : adds_at_most P 0 (log_info m).
Proof.
  unfold log_info. eapply adds_le; [|apply adds_emit].
  unfold weight. by rewrite P_log_info.
Qed.

Lemma adds_http r answer :
  adds_at_most P (weight P (Http r)) (http r answer).
Proof.
  unfold http. rewrite <- (Nat.add_0_r (weight P (Http r))).
  apply adds_bind; [apply adds_emit|intros _; apply adds_lift].
Qed.

Lemma adds_flatten orders : adds_at_most P 0 (flatten orders).
Proof.
  intros w out w' Hrun.
  destruct (appends_only_flatten orders _ _ _ Hrun) as [[Ht _] _].
  exists []. by rewrite app_nil_r.
Qed.

Lemma adds_auth cfg net : adds_at_most P 0 (auth cfg net).
Proof.
  unfold auth. change 0%nat with (0 + 0)%nat.
  apply adds_try; [|intros e; apply adds_fail].
  change 0%nat with (0 + 0)%nat. apply adds_bind.
  - destruct (negb _); [|apply adds_ret].
    change 0%nat with (0 + (0 + 0))%nat.
    apply adds_bind; [apply adds_log_info|intros _].
    apply adds_bind; [|intros j; apply adds_lift].
    eapply adds_le; [|apply adds_http]. unfold weight. by rewrite P_token.
  - intros token. destruct (negb _); [apply adds_fail|].
    change 0%nat with (0 + 0)%nat.
    apply adds_bind; [apply adds_lift|intros _; apply adds_ret].
Qed.

Lemma adds_start_search cfg net : adds_at_most P 0 (start_search cfg net).
Proof.
  unfold start_search. change 0%nat with (0 + 0)%nat.
  apply adds_try; [|intros e; apply adds_fail].
  change 0%nat with (0 + 0)%nat.
  apply adds_bind; [apply adds_lift|]. intros [|i ids]; [apply adds_fail|].
  cbv zeta. change 0%nat with (0 + (0 + 0))%nat.
  apply adds_bind.
  { eapply adds_le; [|apply adds_http]. unfold weight. by rewrite P_search. }
  intros j. apply adds_bind; [apply adds_lift|]. intros sid.
  destruct (negb _); [apply adds_fail|].
  change 0%nat with (0 + (0 + 0))%nat.
  apply adds_bind; [apply adds_lift|intros _].
  apply adds_bind; [apply adds_log_info|intros _; apply adds_ret].
Qed.

Lemma adds_poll_loop net sid n a : adds_at_most P n (poll_loop net sid n a).
Proof.
  revert a. induction n as [|n IH]; intros a; cbn [poll_loop].
  - apply adds_ret.
  - apply (adds_le (weight P (Http (GetPoll sid)) + (0 + (weight P (Sleep 2) + n)))).
    { pose proof (P_poll_or_sleep sid 2). lia. }
    apply adds_bind; [apply adds_http|intros j].
    apply adds_bind; [apply adds_lift|intros pinfo].
    destruct (truthy pinfo).
    + apply (adds_le (0 + 0)); [lia|].
      apply adds_bind; [apply adds_lift|intros parts; apply adds_ret].
    + apply adds_bind; [apply adds_emit|intros _; apply IH].
Qed.

Lemma adds_poll net sid : adds_at_most P 60 (poll net sid).
Proof.
  unfold poll. change 60%nat with ((0 + (60 + 0)) + 0)%nat.
  apply adds_try; [|intros e; apply adds_fail].
  apply adds_bind; [apply adds_lift|intros _].
  apply adds_bind; [apply adds_poll_loop|].
  intros [[|p ps]|]; first [apply adds_fail|apply adds_ret].
Qed.

Lemma adds_fetch_loop net sid parts orders :
  adds_at_most P 0 (fetch_loop net sid parts orders).
Proof.
  revert orders. induction parts as [|p ps IH]; intros orders; cbn [fetch_loop].
  - apply adds_ret.
  - change 0%nat with (0 + (0 + (0 + 0)))%nat.
    apply adds_bind.
    { eapply adds_le; [|apply adds_http]. unfold weight. by rewrite P_page. }
    intros j. apply adds_bind; [apply adds_lift|intros data].
    apply adds_bind; [apply adds_lift|intros more]. apply IH.
Qed.

Lemma adds_fetch_all net sid parts : adds_at_most P 0 (fetch_all net sid parts).
Proof.
  unfold fetch_all. change 0%nat with ((0 + (0 + (0 + 0))) + 0)%nat.
  apply adds_try; [|intros e; apply adds_fail].
  apply adds_bind; [apply adds_fetch_loop|intros orders].
  apply adds_bind; [apply adds_lift|intros _].
  apply adds_bind; [apply adds_log_info|intros _; apply adds_ret].
Qed.

Lemma adds_after_fetch orders : adds_at_most P 0 (after_fetch orders).
Proof.
  unfold after_fetch, flatten_stage. change 0%nat with ((0 + 0) + 0)%nat.
  apply adds_bind; [|intros _; apply adds_unpack].
  apply adds_try; [apply adds_flatten|]. intros e.
  unfold log_error. eapply adds_le; [|apply adds_emit].
  unfold weight. by rewrite P_log_error.
Qed.

Lemma adds_main cfg net : adds_at_most P 60 (main cfg net).
Proof.
  unfold main, after_search. change 60%nat with (0 + (0 + (60 + (0 + 0))))%nat.
  apply adds_bind; [apply adds_auth|intros _].
  apply adds_bind; [apply adds_start_search|intros sid].
  apply adds_bind; [apply adds_poll|intros parts].
  apply adds_bind; [apply adds_fetch_all|intros orders].
  apply adds_after_fetch.
Qed.

Lemma call_main_budget cfg net :
  (count_events P (call_main cfg net).2 <= 60)%nat.
Proof.
  unfold call_main. destruct (main cfg net start) as [out w'] eqn:Hrun.
  destruct (adds_main cfg net _ _ _ Hrun) as (evs & Ht & Hc).
  simpl in Ht. destruct out; simpl; by rewrite Ht.
Qed.

End Budget.

(** X15. Whatever the settings and whatever the network answers, a call
    of [main] makes at most 60 polls and sleeps at most 60 times. *)
Theorem poll_budget (cfg : config) (net : network) :
  (count_events is_poll (call_main cfg net).2 <= 60)%nat /\
  (count_events is_sleep (call_main cfg net).2 <= 60)%nat.
Proof.
  split; apply call_main_budget; done.
Qed.

(** *** Plan ids written as numerals *)

Lemma decimal_not_comma c : is_decimal c = true -> Ascii.eqb c "," = false.
Proof.
  intros Hc. destruct (Ascii.eqb_spec c ",") as [->|]; [done|done].
Qed.

Lemma decimal_not_space c : is_decimal c = true -> is_space c = false.
Proof.
  unfold is_decimal, is_space. cbv zeta. intros Hc.
  apply andb_prop in Hc as [H1%N.leb_le H2%N.leb_le].
  repeat match goal with
         | |- context [(?a <=? ?b)%N] => destruct (N.leb_spec a b)
         | |- context [(?a =? ?b)%N] => destruct (N.eqb_spec a b)
         end; simpl; try done; lia.
Qed.

Lemma decimal_not_int_space c : is_decimal c = true -> is_int_space c = false.
Proof.
  unfold is_decimal, is_int_space. cbv zeta. intros Hc.
  apply andb_prop in Hc as [H1%N.leb_le H2%N.leb_le].
  repeat match goal with
         | |- context [(?a <=? ?b)%N] => destruct (N.leb_spec a b)
         | |- context [(?a =? ?b)%N] => destruct (N.eqb_spec a b)
         end; simpl; try done; lia.
Qed.

Lemma rstrip_by_none p s :
  all_chars (fun c => negb (p c)) s = true -> rstrip_by p s = s.
Proof.
  induction s as [|c s IH]; [done|]. simpl.
  intros [Hc Hs]%andb_prop. rewrite (IH Hs).
  destruct s; [|done]. by apply negb_true_iff in Hc as ->.
Qed.

Lemma all_chars_impl (p q : ascii -> bool) s :
  (forall c, p c = true -> q c = true) ->
  all_chars p s = true -> all_chars q s = true.
Proof.
  intros Hpq. induction s as [|c s IH]; [done|]. simpl.
  intros [Hc Hs]%andb_prop. by rewrite (Hpq c Hc), (IH Hs).
Qed.

Lemma strip_by_numeral p s :
  (forall c, is_decimal c = true -> p c = false) ->
  all_chars is_decimal s = true ->
  rstrip_by p (lstrip_by p s) = s.
Proof.
  intros Hp Hs.
  assert (lstrip_by p s = s) as ->.
  { destruct s as [|c s]; [done|]. simpl in *.
    apply andb_prop in Hs as [Hc _]. by rewrite (Hp c Hc). }
  apply rstrip_by_none. eapply all_chars_impl; [|exact Hs].
  intros c Hc. by rewrite (Hp c Hc).
Qed.

Lemma digits_value_acc s acc :
  all_chars is_decimal s = true ->
  digits_value s acc false = Some (digits_acc s acc).
Proof.
  revert acc. induction s as [|c s IH]; intros acc; [done|]. simpl.
  intros [Hc Hs]%andb_prop. rewrite Hc. by apply IH.
Qed.

Lemma numeral_parts s :
  numeral s -> s <> "" /\ all_chars is_decimal s = true.
Proof.
  unfold numeral. intros [Hne Hs]%andb_prop. split; [|done].
  intros ->. done.
Qed.

Lemma int_of_str_numeral s : numeral s -> int_of_str s = Ok (decimal_value s).
Proof.
  intros [Hne Hs]%numeral_parts. unfold int_of_str. cbv zeta.
  rewrite (strip_by_numeral is_int_space s decimal_not_int_space Hs).
  destruct s as [|c t]; [done|].
  assert (Hc : is_decimal c = true) by (simpl in Hs; by apply andb_prop in Hs as [? _]).
  destruct (Ascii.eqb_spec c "-") as [->|_]; [done|].
  destruct (Ascii.eqb_spec c "+") as [->|_]; [done|].
  unfold unsigned_value. rewrite Hc.
  by rewrite (digits_value_acc (String c t) 0 Hs).
Qed.

Lemma isdigit_numeral s : numeral s -> isdigit (strip s) = true.
Proof.
  intros Hn. destruct (numeral_parts s Hn) as [Hne Hs]. unfold strip.
  rewrite (strip_by_numeral is_space s decimal_not_space Hs).
  unfold isdigit. apply andb_true_intro. split.
  - apply negb_true_iff. by apply String.eqb_neq.
  - eapply all_chars_impl; [|exact Hs].
    intros c Hc. unfold is_digit_char. cbv zeta. by rewrite Hc.
Qed.

Lemma split_no_sep sep s :
  all_chars (fun c => negb (Ascii.eqb c sep)) s = true -> split sep s = [s].
Proof.
  induction s as [|c s IH]; [done|]. simpl.
  intros [Hc Hs]%andb_prop. apply negb_true_iff in Hc. rewrite Hc.
  by rewrite (IH Hs).
Qed.

Lemma split_app_sep sep s rest :
  all_chars (fun c => negb (Ascii.eqb c sep)) s = true ->
  split sep (s +:+ String sep rest) = s :: split sep rest.
Proof.
  induction s as [|c s IH]; simpl.
  - intros _. by rewrite Ascii.eqb_refl.
  - intros [Hc Hs]%andb_prop. apply negb_true_iff in Hc. rewrite Hc.
    by rewrite (IH Hs).
Qed.

Lemma split_concat sep entries :
  entries <> [] ->
  Forall (fun s => all_chars (fun c => negb (Ascii.eqb c sep)) s = true)
    entries ->
  split sep (String.concat (String sep "") entries) = entries.
Proof.
  intros Hne Hall. induction Hall as [|s l Hs Hl IH]; [done|].
  destruct l as [|s' l].
  - simpl. by apply split_no_sep.
  - change (String.concat (String sep "") (s :: s' :: l))
      with (s +:+ String sep (String.concat (String sep "") (s' :: l))).
    rewrite split_app_sep by done. by rewrite IH.
Qed.

Lemma filter_all {A} (p : A -> bool) l :
  Forall (fun a => p a = true) l -> List.filter p l = l.
Proof.
  induction 1 as [|a l Ha _ IH]; [done|]. simpl. by rewrite Ha, IH.
Qed.

(** X16. PLAN_IDS written as numerals separated by commas is read as the
    values of the numerals, in the order written and with repetitions
    kept; an empty PLAN_IDS gives no id. *)
Theorem plan_ids_of_numerals (entries : list string) :
  Forall numeral entries ->
  parse_plan_ids (String.concat "," entries) = Ok (map decimal_value entries).
Proof.
  intros Hall. destruct entries as [|s l]; [reflexivity|].
  unfold parse_plan_ids. rewrite split_concat.
  - rewrite filter_all.
    + apply rmapM_Forall2. apply Forall2_fmap_r, Forall_Forall2_diag.
      eapply Forall_impl; [exact Hall|]. apply int_of_str_numeral.
    + eapply Forall_impl; [exact Hall|]. apply isdigit_numeral.
  - done.
  - eapply Forall_impl; [exact Hall|]. intros x Hx.
    destruct (numeral_parts x Hx) as [_ Hd].
    eapply all_chars_impl; [|exact Hd].
    intros c Hc. by rewrite (decimal_not_comma c Hc).
Qed.

(** *** The submit as a whole *)

Lemma plain_space c : plain_char c = true -> is_int_space c = is_space c.
Proof.
  unfold plain_char, is_int_space, is_space. cbv zeta.
  repeat match goal with
         | |- context [(?a <=? ?b)%N] => destruct (N.leb_spec a b)
         | |- context [(?a =? ?b)%N] => destruct (N.eqb_spec a b)
         end; simpl; try done; lia.
Qed.

Lemma plain_digit c : plain_char c = true -> is_digit_char c = is_decimal c.
Proof.
  unfold plain_char, is_digit_char, is_decimal. cbv zeta.
  repeat match goal with
         | |- context [(?a <=? ?b)%N] => destruct (N.leb_spec a b)
         | |- context [(?a =? ?b)%N] => destruct (N.eqb_spec a b)
         end; simpl; try done; lia.
Qed.

Lemma all_chars_split (P : ascii -> bool) sep s :
  all_chars P s = true ->
  Forall (fun x => all_chars P x = true) (split sep s).
Proof.
  induction s as [|c s IH]; simpl.
  - intros _. by apply Forall_cons_2.
  - intros [Hc Hs]%andb_prop. specialize (IH Hs).
    destruct (Ascii.eqb c sep); [by apply Forall_cons_2|].
    destruct (split sep s) as [|x xs].
    + apply Forall_cons_2; [|done]. simpl. by rewrite Hc.
    + apply Forall_cons in IH as [Hx Hxs].
      apply Forall_cons_2; [|done]. simpl. by rewrite Hc, Hx.
Qed.

Lemma all_chars_lstrip (P p : ascii -> bool) s :
  all_chars P s = true -> all_chars P (lstrip_by p s) = true.
Proof.
  induction s as [|c s IH]; [done|]. simpl.
  intros [Hc Hs]%andb_prop. destruct (p c); [by apply IH|].
  simpl. by rewrite Hc, Hs.
Qed.

Lemma all_chars_rstrip (P p : ascii -> bool) s :
  all_chars P s = true -> all_chars P (rstrip_by p s) = true.
Proof.
  induction s as [|c s IH]; [done|]. simpl.
  intros [Hc Hs]%andb_prop. specialize (IH Hs).
  destruct (rstrip_by p s) as [|c' r].
  - destruct (p c); [done|]. simpl. by rewrite Hc.
  - change (all_chars P (String c (String c' r)))
      with (P c && all_chars P (String c' r)).
    by rewrite Hc, IH.
Qed.

Lemma lstrip_by_ext (P p q : ascii -> bool) s :
  (forall c, P c = true -> p c = q c) ->
  all_chars P s = true -> lstrip_by p s = lstrip_by q s.
Proof.
  intros Hpq. induction s as [|c s IH]; [done|]. simpl.
  intros [Hc Hs]%andb_prop. rewrite (Hpq c Hc), (IH Hs). done.
Qed.

Lemma rstrip_by_ext (P p q : ascii -> bool) s :
  (forall c, P c = true -> p c = q c) ->
  all_chars P s = true -> rstrip_by p s = rstrip_by q s.
Proof.
  intros Hpq. induction s as [|c s IH]; [done|]. simpl.
  intros [Hc Hs]%andb_prop. rewrite (Hpq c Hc), (IH Hs). done.
Qed.

Lemma plain_strip x :
  plain_text x -> rstrip_by is_int_space (lstrip_by is_int_space x) = strip x.
Proof.
  intros Hx. unfold strip.
  rewrite (lstrip_by_ext plain_char is_int_space is_space x plain_space Hx).
  apply (rstrip_by_ext plain_char); [exact plain_space|].
  by apply all_chars_lstrip.
Qed.

Lemma all_chars_ext (P p q : ascii -> bool) s :
  (forall c, P c = true -> p c = q c) ->
  all_chars P s = true -> all_chars p s = all_chars q s.
Proof.
  intros Hpq. induction s as [|c s IH]; [done|]. simpl.
  intros [Hc Hs]%andb_prop. by rewrite (Hpq c Hc), (IH Hs).
Qed.

Lemma plain_isdigit x :
  plain_text x -> isdigit (strip x) = is_numeral (strip x).
Proof.
  intros Hx. unfold isdigit, is_numeral. f_equal.
  apply (all_chars_ext plain_char); [exact plain_digit|].
  unfold strip. by apply all_chars_rstrip, all_chars_lstrip.
Qed.

Lemma plain_entries s x : plain_text s -> In x (split "," s) -> plain_text x.
Proof.
  intros Hs Hin. pose proof (all_chars_split plain_char "," s Hs) as Hall.
  rewrite Forall_forall in Hall. by apply Hall, list_elem_of_In.
Qed.

Lemma kept_entries_plain s :
  plain_text s ->
  kept_entries s =
    List.filter (fun x => is_numeral (strip x)) (split "," s).
Proof.
  intros Hs. unfold kept_entries. apply filter_ext_in.
  intros x Hx. apply plain_isdigit. by apply (plain_entries s).
Qed.

Lemma plain_kept_entry s x :
  plain_text s -> x ∈ kept_entries s ->
  rstrip_by is_int_space (lstrip_by is_int_space x) = strip x /\
  numeral (strip x).
Proof.
  intros Hs Hin. rewrite (kept_entries_plain s Hs) in Hin.
  apply list_elem_of_In, filter_In in Hin as [Hin Hnum].
  split; [|exact Hnum]. by apply plain_strip, (plain_entries s).
Qed.

Lemma int_of_str_stripped x :
  numeral (rstrip_by is_int_space (lstrip_by is_int_space x)) ->
  int_of_str x =
    Ok (decimal_value (rstrip_by is_int_space (lstrip_by is_int_space x))).
Proof.
  intros [Hne Hs]%numeral_parts. unfold int_of_str. cbv zeta.
  destruct (rstrip_by is_int_space (lstrip_by is_int_space x)) as [|c t];
    [done|].
  assert (Hc : is_decimal c = true)
    by (simpl in Hs; by apply andb_prop in Hs as [? _]).
  destruct (Ascii.eqb_spec c "-") as [->|_]; [done|].
  destruct (Ascii.eqb_spec c "+") as [->|_]; [done|].
  unfold unsigned_value. rewrite Hc.
  by rewrite (digits_value_acc (String c t) 0 Hs).
Qed.

Lemma parse_plan_ids_plain s :
  plain_text s -> parse_plan_ids s = Ok (kept_ids s).
Proof.
  intros Hs. unfold parse_plan_ids, kept_ids. fold (kept_entries s).
  apply rmapM_Forall2. apply Forall2_fmap_r, Forall_Forall2_diag.
  apply Forall_forall. intros x Hx.
  destruct (plain_kept_entry s x Hs Hx) as [Hstrip Hnum].
  unfold compose. rewrite <- Hstrip in Hnum. rewrite <- Hstrip.
  by apply int_of_str_stripped.
Qed.

Lemma parse_plan_ids_nil s : kept_entries s = [] -> parse_plan_ids s = Ok [].
Proof. unfold parse_plan_ids, kept_entries. by intros ->. Qed.

Lemma parse_plan_ids_nil_inv s : parse_plan_ids s = Ok [] -> kept_entries s = [].
Proof.
  unfold parse_plan_ids. fold (kept_entries s).
  destruct (kept_entries s) as [|x xs]; [done|]. simpl.
  destruct (int_of_str x); [|done]. simpl.
  destruct (rmapM int_of_str xs); done.
Qed.

Lemma start_search_parse_raise cfg net w e :
  outputs w = empty_outputs ->
  parse_plan_ids (PLAN_IDS cfg) = Raise e ->
  start_search cfg net w =
    (Ret empty_table, logged w [LogError (SearchInitError e)]).
Proof.
  intros Hw Hp. unfold start_search, try_, bind at 1, lift at 1.
  rewrite Hp. by rewrite fail_with_empty.
Qed.

Lemma no_valid_plan_ids_iff cfg net w :
  outputs w = empty_outputs ->
  exists out tr,
    start_search cfg net w = (out, logged w tr) /\
    (LogError NoValidPlanIds ∈ tr <-> kept_entries (PLAN_IDS cfg) = []) /\
    (kept_entries (PLAN_IDS cfg) = [] ->
       out = Ret empty_table /\ tr = [LogError NoValidPlanIds]).
Proof.
  intros Hw. destruct (parse_plan_ids (PLAN_IDS cfg)) as [ids|e] eqn:Hp.
  - destruct ids as [|i ids].
    + pose proof (parse_plan_ids_nil_inv _ Hp) as Hnil.
      exists (Ret empty_table), [LogError NoValidPlanIds].
      split; [by apply start_search_no_ids|].
      split; [|done]. split; [done|]. intros _. by left.
    + assert (Hne : kept_entries (PLAN_IDS cfg) <> []).
      { intros Hnil. by rewrite (parse_plan_ids_nil _ Hnil) in Hp. }
      destruct (start_search_posts cfg net w (i :: ids) Hw Hp)
        as (out & tr & Hrun & Hnot); [done|].
      exists out, (Http (PostSearch (search_body cfg (i :: ids))) :: tr).
      split; [done|]. split; [|done]. split; [|done].
      intros [Heq|Hin]%elem_of_cons; done.
  - assert (Hne : kept_entries (PLAN_IDS cfg) <> []).
    { intros Hnil. by rewrite (parse_plan_ids_nil _ Hnil) in Hp. }
    exists (Ret empty_table), [LogError (SearchInitError e)].
    split; [by apply start_search_parse_raise|].
    split; [|done]. split; [|done].
    intros [Heq|Hin%elem_of_nil]%elem_of_cons; done.
Qed.

(** C8. Only the entries of PLAN_IDS whose stripped text is a digit
    string are read, the others are dropped without an error. The submit
    logs that there is no valid plan id, and returns the empty table
    without any request, exactly when no entry is left. PLAN_IDS being
    plain text, the entries left are those made of decimal digits between
    blanks; when there is one, the submit posts a body with their values
    as plan_ids and with each of date_field, date_from, date_to exactly
    when that setting is not empty, and it fails when the answer has no
    search_id. *)
Theorem submit_behaviour (cfg : config) (net : network) (w : world) :
  outputs w = empty_outputs ->
  (exists out tr,
     start_search cfg net w = (out, logged w tr) /\
     (LogError NoValidPlanIds ∈ tr <-> kept_entries (PLAN_IDS cfg) = []) /\
     (kept_entries (PLAN_IDS cfg) = [] ->
        out = Ret empty_table /\ tr = [LogError NoValidPlanIds])) /\
  (plain_text (PLAN_IDS cfg) ->
     kept_entries (PLAN_IDS cfg) =
       List.filter (fun x => is_numeral (strip x))
         (split "," (PLAN_IDS cfg)) /\
     parse_plan_ids (PLAN_IDS cfg) = Ok (kept_ids (PLAN_IDS cfg)) /\
     (kept_entries (PLAN_IDS cfg) <> [] ->
        (exists out tr,
           start_search cfg net w =
             (out,
              logged w (Http (PostSearch
                                (search_body cfg (kept_ids (PLAN_IDS cfg))))
                        :: tr))) /\
        (exists kvs,
           search_body cfg (kept_ids (PLAN_IDS cfg)) = JDict kvs /\
           assoc "plan_ids" kvs =
             Some (JList (map JInt (kept_ids (PLAN_IDS cfg)))) /\
           assoc "date_field" kvs =
             (if String.eqb (DATE_FIELD cfg) "" then None
              else Some (JStr (DATE_FIELD cfg))) /\
           assoc "date_from" kvs =
             (if String.eqb (DATE_FROM cfg) "" then None
              else Some (JStr (DATE_FROM cfg))) /\
           assoc "date_to" kvs =
             (if String.eqb (DATE_TO cfg) "" then None
              else Some (JStr (DATE_TO cfg)))) /\
        (forall kvs,
           search_response net (search_body cfg (kept_ids (PLAN_IDS cfg)))
             = Ok (JDict kvs) ->
           assoc "search_id" kvs = None ->
           start_search cfg net w =
             (Ret empty_table,
              logged w [Http (PostSearch
                                (search_body cfg (kept_ids (PLAN_IDS cfg))));
                        LogError NoSearchId])))).
Proof.
  intros Hw. split; [by apply no_valid_plan_ids_iff|].
  intros Hplain. split; [by apply kept_entries_plain|].
  pose proof (parse_plan_ids_plain _ Hplain) as Hp.
  split; [done|]. intros Hne.
  assert (Hids : kept_ids (PLAN_IDS cfg) <> []).
  { unfold kept_ids. by destruct (kept_entries (PLAN_IDS cfg)). }
  split; [|split].
  - destruct (start_search_posts cfg net w _ Hw Hp Hids)
      as (out & tr & Hrun & _).
    by exists out, tr.
  - apply search_body_keys.
  - intros kvs. by apply start_search_no_sid.
Qed.

End Script.

(** ** The script with the reference [str] and [json.dumps] *)

Lemma ref_str_returns v : is_ok (ref_str v).
Proof. by eexists. Qed.

Lemma ref_dumps_returns v : is_ok (ref_dumps v).
Proof. by eexists. Qed.

Lemma assoc_depth k kvs x :
  assoc k kvs = Some x ->
  (depth x <= foldr (fun '(_, x) d => Nat.max (depth x) d) 0 kvs)%nat.
Proof.
  induction kvs as [|[k' v] kvs IH]; simpl; [done|].
  destruct (String.eqb k k').
  - intros [= ->]. lia.
  - intros Hx. specialize (IH Hx). lia.
Qed.

Lemma follow_depth d ks v : follow d ks = Some v -> (depth v <= depth d)%nat.
Proof.
  revert d. induction ks as [|k ks IH]; intros d; simpl.
  - intros [= ->]. lia.
  - destruct d as [| | | | |kvs]; try done.
    destruct (assoc k kvs) as [x|] eqn:Hx; [|done].
    intros Hv%IH. apply assoc_depth in Hx. simpl. lia.
Qed.

(** C2. For every value [d] and every key path [ks] the accessor [_g]
    returns: its result is never an exception, with [str] as a total
    function and also with a [str] that gives up beyond a nesting depth,
    on the values within that depth. Whatever [str] is, the result is the
    empty string when the path cannot be followed (a key is absent, or a
    value on the way is not a dict) and when the value reached is [None]
    or the empty string; otherwise it is [str] of the value reached, so
    [_g] raises nothing of its own. *)
Theorem accessor_total (d : json) (ks : list string) :
  (exists s, _g ref_str d ks = Ok s) /\
  (forall limit, (depth d <= limit)%nat ->
     exists s, _g (guarded_str limit) d ks = Ok s) /\
  (forall str,
     match follow d ks with
     | None => _g str d ks = Ok ""
     | Some v =>
         (v = JNull \/ v = JStr "" -> _g str d ks = Ok "") /\
         (v <> JNull -> v <> JStr "" -> _g str d ks = str v)
     end) /\
  (forall str pre k post v,
     ks = pre ++ k :: post -> follow d pre = Some v ->
     (forall kvs, v <> JDict kvs) -> _g str d ks = Ok "").
Proof.
  split; [|split; [|split]].
  - rewrite _g_follow. destruct (follow d ks) as [v|]; [|by eexists].
    destruct (in_none_empty v); by eexists.
  - intros limit Hd. rewrite _g_follow.
    destruct (follow d ks) as [v|] eqn:Hv; [|by eexists].
    destruct (in_none_empty v); [by eexists|].
    apply follow_depth in Hv. unfold guarded_str.
    destruct (Nat.leb_spec (depth v) limit); [by eexists|lia].
  - intros str. rewrite _g_follow. destruct (follow d ks) as [v|]; [|done].
    split.
    + intros Hv%in_none_empty_spec. by rewrite Hv.
    + intros Hnull Hempty. destruct (in_none_empty v) eqn:Hv; [|done].
      by apply in_none_empty_spec in Hv as [?|?].
  - intros str pre k post v -> Hpre Hv.
    rewrite _g_follow, follow_app, Hpre.
    destruct v; try done. by destruct (Hv kvs).
Qed.

Lemma booking_questions_cell_ref kvs :
  booking_questions_cell ref_dumps (JDict kvs) = Ok (booking_text kvs).
Proof.
  unfold booking_questions_cell, booking_text. simpl.
  destruct (assoc "booking_questions" kvs) as [bq|]; [|done].
  by destruct (in_none_empty bq).
Qed.

(** C5, as the script has it. The booking questions cell of a row is the
    text [json.dumps] gives with its default separators (a space after
    each comma and colon) when the order has a booking_questions value
    that is neither null nor the empty string, an empty list or dict
    included; it is the empty string when the value is absent, null or
    the empty string. *)
Theorem booking_questions_field
  (kvs : list (string * json)) (it : json) (w : world) (c : list string) :
  has_columns (outputs w) ->
  outputs w !! "booking_questions" = Some c ->
  exists w',
    flatten_row ref_str ref_dumps (JDict kvs) it w = (Val tt, w') /\
    outputs w' !! "booking_questions" = Some (c ++ [booking_text kvs]).
Proof.
  intros Hcols Hc.
  assert (Hrun : flatten_row ref_str ref_dumps (JDict kvs) it w =
            (Val tt, {| trace := trace w; outputs :=
               appended (ok_prefix (row_cells ref_str ref_dumps (JDict kvs) it))
                        (outputs w) |})).
  { rewrite flatten_row_spec by done. rewrite first_outcome_all_ok; [done|].
    apply row_cells_ok; [apply ref_str_returns|apply ref_dumps_returns]. }
  eexists. split; [exact Hrun|].
  destruct (flatten_row_booking _ _ _ _ _ _ _ Hcols Hc Hrun) as (s & Hs & Hcol).
  rewrite booking_questions_cell_ref in Hs. injection Hs as <-. exact Hcol.
Qed.

Lemma booking_text_examples :
  booking_text [("booking_questions", age_question)] =
    "[{" +:+ quoted "q" +:+ ": " +:+ quoted "age" +:+ "}]" /\
  booking_text [("booking_questions", JList [])] = "[]" /\
  booking_text [("booking_questions", JNull)] = "" /\
  booking_text [("booking_questions", JStr "")] = "" /\
  booking_text [] = "".
Proof. by vm_compute. Qed.

(** ** Instances *)

Lemma pair_of_parts {A B} (p : A * B) a b : p.1 = a -> p.2 = b -> p = (a, b).
Proof. destruct p. simpl. by intros -> ->. Qed.

Lemma accessor_total_witness :
  _g ref_str order_with_buyer ["buyer"; "id"] = Ok "7" /\
  _g ref_str order_with_buyer ["id"] = Ok "O5" /\
  _g ref_str order_with_buyer ["surcharge"] = Ok "0" /\
  _g ref_str order_with_buyer ["buyer"; "email"] = Ok "" /\
  _g ref_str order_with_buyer ["buyer"; "phone"] = Ok "" /\
  _g ref_str order_with_buyer ["buyer"; "name"] = Ok "" /\
  _g ref_str order_with_buyer ["id"; "value"] = Ok "" /\
  exists s, _g (guarded_str 2) order_with_buyer ["buyer"] = Ok s.
Proof.
  pose proof (fun ks =>
    proj1 (proj2 (proj2 (accessor_total order_with_buyer ks))) ref_str)
    as Hreached.
  pose proof (fun ks =>
    proj2 (proj2 (proj2 (accessor_total order_with_buyer ks))) ref_str)
    as Hway.
  split; [|split; [|split; [|split; [|split; [|split; [|split]]]]]].
  - apply (proj2 (Hreached ["buyer"; "id"])); discriminate.
  - apply (proj2 (Hreached ["id"])); discriminate.
  - apply (proj2 (Hreached ["surcharge"])); discriminate.
  - apply (proj1 (Hreached ["buyer"; "email"])). by right.
  - apply (proj1 (Hreached ["buyer"; "phone"])). by left.
  - apply (Hreached ["buyer"; "name"]).
  - apply (Hway ["id"; "value"] ["id"] "value" [] (JStr "O5")); [done..|].
    discriminate.
  - apply (proj1 (proj2 (accessor_total order_with_buyer ["buyer"])) 2%nat).
    vm_compute. lia.
Defined.

Lemma flatten_row_count_witness :
  exists w cols,
    flatten ref_str ref_dumps [order_two_items; order_no_items] start
      = (Val tt, w) /\
    unpack (outputs w) = Ok cols /\
    length cols = 70%nat /\
    Forall (fun c => length c = row_count [order_two_items; order_no_items])
      cols.
Proof.
  apply (flatten_row_count ref_str ref_dumps [order_two_items; order_no_items]).
  - intros v. exists (str_text v). reflexivity.
  - intros v. exists (dumps_text v). reflexivity.
  - repeat constructor.
Defined.

Lemma partition_resolution_witness :
  exists parts,
    resolve_partitions example_partition_info = Ok parts /\
    StronglySorted Z.lt parts /\
    ((exists n, n ∈ [2; 0; 5; 0] /\ 0 <= n) ->
       forall n, n ∈ parts <-> n ∈ [2; 0; 5; 0] /\ 0 <= n) /\
    ((forall n, n ∈ [2; 0; 5; 0] -> n < 0) -> parts = [0]).
Proof.
  apply (proj1 partition_resolution). repeat constructor.
Defined.

Lemma flatten_error_contained_witness :
  exists w1 w2,
    after_fetch ref_str ref_dumps ([order_O1] ++ JInt 5 :: [order_two_items])
      start =
      (unpacked (outputs w2),
       logged w2 [LogError (FlattenError AttributeError)]) /\
    extends w1 w2.
Proof.
  exists (flatten ref_str ref_dumps [order_O1] start).2,
         (flatten ref_str ref_dumps [order_O1] start).2.
  apply (flatten_error_contained ref_str ref_dumps).
  - apply pair_of_parts; [vm_compute; reflexivity|reflexivity].
  - reflexivity.
Defined.

Lemma booking_questions_field_witness :
  exists w',
    flatten_row ref_str ref_dumps
      (JDict [("booking_questions", age_question)]) (JDict []) start
      = (Val tt, w') /\
    outputs w' !! "booking_questions" =
      Some ([] ++ [booking_text [("booking_questions", age_question)]]).
Proof.
  apply (booking_questions_field
           [("booking_questions", age_question)] (JDict []) start []).
  - intros name Hin. exists []. by apply empty_outputs_lookup.
  - vm_compute. reflexivity.
Defined.


Lemma pipeline_failure_table_witness :
  exists cols tr,
    call_main ref_str ref_dumps hard_coded silent_network = (Ok cols, tr) /\
    length cols = 70%nat /\
    ((exists m, terminal m = true /\ LogError m ∈ tr) -> cols = empty_table).
Proof. apply (pipeline_failure_table ref_str ref_dumps). Defined.

Lemma submit_behaviour_example :
  (start_search ref_str hard_coded pending_network start).1
    = Val (JStr "S1") /\
  trace (start_search ref_str hard_coded pending_network start).2 =
    [Http (PostSearch
             (JDict [("plan_ids",
                      JList (map JInt [420002; 474974; 416569; 480359;
                                       474902; 433336]))]));
     LogInfo (SearchId (JStr "S1"))].
Proof. split; vm_compute; reflexivity. Qed.

Lemma unconvertible_partition_fails_witness :
  exists e,
    resolve_partitions (JList [JDict [("partition_num", JNull)]]) = Raise e /\
    after_search ref_str ref_dumps
      (ready_network (JList [JDict [("partition_num", JNull)]])) (JStr "S1")
      start =
      (Ret empty_table,
       logged start (polls (JStr "S1") 2 ++
                     [Http (GetPoll (JStr "S1")); LogError (PollingError e)])).
Proof.
  apply (unconvertible_partition_fails ref_str ref_dumps
           (ready_network (JList [JDict [("partition_num", JNull)]]))
           (JStr "S1") start 2%nat
           (JDict [("partition_info", JList [JDict [("partition_num", JNull)]])])
           [JDict [("partition_num", JNull)]] [("partition_num", JNull)] JNull).
  - exists "S1". reflexivity.
  - reflexivity.
  - lia.
  - intros i Hi. exists (JDict []), JNull.
    destruct i as [|[|i]]; [repeat split..|lia].
  - reflexivity.
  - reflexivity.
  - by left.
  - reflexivity.
  - intros n. discriminate.
Defined.

Lemma submit_behaviour_witness :
  (kept_entries (PLAN_IDS no_ids_config) = [] /\
   start_search ref_str no_ids_config no_search_id_network start =
     (Ret empty_table, logged start [LogError NoValidPlanIds])) /\
  (split "," (PLAN_IDS mixed_config) = ["12"; " abc"; ""; " 7 "; "4x"] /\
   kept_entries (PLAN_IDS mixed_config) = ["12"; " 7 "] /\
   parse_plan_ids (PLAN_IDS mixed_config) = Ok [12; 7] /\
   start_search ref_str mixed_config no_search_id_network start =
     (Ret empty_table,
      logged start
        [Http (PostSearch
                 (JDict [("plan_ids", JList [JInt 12; JInt 7]);
                         ("date_from", JStr "2024-01-01")]));
         LogError NoSearchId])) /\
  (plain_text (PLAN_IDS hard_coded) /\
   start_search ref_str hard_coded no_search_id_network start =
     (Ret empty_table,
      logged start
        [Http (PostSearch
                 (JDict [("plan_ids",
                          JList (map JInt [420002; 474974; 416569; 480359;
                                           474902; 433336]))]));
         LogError NoSearchId])).
Proof.
  split; [|split].
  - assert (Hnil : kept_entries (PLAN_IDS no_ids_config) = [])
      by (vm_compute; reflexivity).
    split; [exact Hnil|].
    destruct (proj1 (submit_behaviour ref_str no_ids_config
                       no_search_id_network start eq_refl))
      as (out & tr & Hrun & _ & Hstop).
    destruct (Hstop Hnil) as [-> ->]. exact Hrun.
  - assert (Hplain : plain_text (PLAN_IDS mixed_config))
      by (vm_compute; reflexivity).
    destruct (proj2 (submit_behaviour ref_str mixed_config
                       no_search_id_network start eq_refl) Hplain)
      as (Hkept & Hparse & Hposts).
    assert (Hids : kept_ids (PLAN_IDS mixed_config) = [12; 7])
      by (vm_compute; reflexivity).
    assert (Hbody : search_body mixed_config (kept_ids (PLAN_IDS mixed_config))
                    = JDict [("plan_ids", JList [JInt 12; JInt 7]);
                             ("date_from", JStr "2024-01-01")])
      by (vm_compute; reflexivity).
    split; [vm_compute; reflexivity|].
    split; [rewrite Hkept; vm_compute; reflexivity|].
    split; [by rewrite Hparse, Hids|].
    rewrite <- Hbody.
    apply Hposts with (kvs := [("status", JStr "queued")]).
    + rewrite Hkept. vm_compute. discriminate.
    + reflexivity.
    + reflexivity.
  - assert (Hplain : plain_text (PLAN_IDS hard_coded))
      by (vm_compute; reflexivity).
    split; [exact Hplain|].
    destruct (proj2 (submit_behaviour ref_str hard_coded
                       no_search_id_network start eq_refl) Hplain)
      as (Hkept & _ & Hposts).
    assert (Hbody : search_body hard_coded (kept_ids (PLAN_IDS hard_coded))
                    = JDict [("plan_ids",
                              JList (map JInt [420002; 474974; 416569; 480359;
                                               474902; 433336]))])
      by (vm_compute; reflexivity).
    rewrite <- Hbody.
    apply Hposts with (kvs := [("status", JStr "queued")]).
    + rewrite Hkept. vm_compute. discriminate.
    + reflexivity.
    + reflexivity.
Defined.

(** Outside plain text the filter and [int] can differ: an entry made of
    a superscript digit passes [isdigit], [int] rejects it, and the submit
    ends with the error of the conversion; the line for a missing plan id
    is not logged, an entry being left. *)
Lemma superscript_plan_id_fails :
  kept_entries (PLAN_IDS superscript_config) = [PLAN_IDS superscript_config] /\
  (start_search ref_str superscript_config pending_network start).1
    = Ret empty_table /\
  trace (start_search ref_str superscript_config pending_network start).2
    = [LogError (SearchInitError ValueError)].
Proof. repeat split; vm_compute; reflexivity. Qed.

Lemma row_alignment_witness :
  exists k, (k < 70)%nat /\
    forall i name, variable_names !! i = Some name ->
      exists c,
        outputs (flatten_row (guarded_str 1) ref_dumps order_deep_currency
                   (JDict []) start).2 !! name = Some c /\
        length c = if (i <? k)%nat then 1%nat else 0%nat.
Proof.
  apply (proj1 (proj2 (proj2 (row_alignment (guarded_str 1) ref_dumps)))
           order_deep_currency (JDict []) start
           (flatten_row (guarded_str 1) ref_dumps order_deep_currency
              (JDict []) start).2
           RecursionError 0%nat).
  - apply start_aligned.
  - apply pair_of_parts; [vm_compute; reflexivity|reflexivity].
Defined.

(** With a [str] that gives up on the nested currency, the returned
    columns before currency have a cell and the others have none. *)
Lemma unequal_columns_example :
  exists cols,
    (after_fetch (guarded_str 1) ref_dumps [order_deep_currency] start).1
      = Ret cols /\
    cols !! 0%nat = Some ["O4"] /\ cols !! 4%nat = Some [""] /\
    cols !! 5%nat = Some [] /\ cols !! 69%nat = Some [].
Proof. eexists. vm_compute. repeat split. Qed.

(** ** Where the specification differs from the script *)

(** C4. The order after the failing one is not flattened: the run that
    meets a value that is not an order first returns the empty table,
    although the order that follows alone gives a row. *)
Lemma flatten_stops_at_error :
  (after_fetch ref_str ref_dumps [JInt 5; order_O1] start).1
    = Ret empty_table /\
  trace (after_fetch ref_str ref_dumps [JInt 5; order_O1] start).2
    = [LogError (FlattenError AttributeError)] /\
  exists cols,
    (after_fetch ref_str ref_dumps [order_O1] start).1 = Ret cols /\
    cols !! 0%nat = Some ["O1"].
Proof.
  split; [vm_compute; reflexivity|]. split; [vm_compute; reflexivity|].
  eexists. split; [vm_compute; reflexivity|reflexivity].
Qed.

(** C5. The text has a space after the colon, so it is not the compact
    form; and an empty list is written out, not left empty. *)
Lemma booking_questions_not_compact :
  booking_questions_cell ref_dumps (JDict [("booking_questions", age_question)])
    = Ok ("[{" +:+ quoted "q" +:+ ": " +:+ quoted "age" +:+ "}]") /\
  compact_text age_question = "[{" +:+ quoted "q" +:+ ":" +:+ quoted "age" +:+ "}]" /\
  booking_questions_cell ref_dumps (JDict [("booking_questions", age_question)])
    <> Ok (compact_text age_question) /\
  booking_questions_cell ref_dumps (JDict [("booking_questions", JList [])])
    = Ok "[]".
Proof. vm_compute. repeat split; discriminate. Qed.


(** C7. A run that fails returns 70 empty columns, not 69. *)
Lemma failed_run_returns_70_columns :
  exists cols tr,
    call_main ref_str ref_dumps hard_coded silent_network = (Ok cols, tr) /\
    LogError (AuthError RequestException) ∈ tr /\
    cols = empty_table /\ length cols = 70%nat /\ length cols <> 69%nat.
Proof.
  eexists _, _. split; [vm_compute; reflexivity|].
  split; [apply list_elem_of_lookup; by exists 2%nat|]. by repeat split.
Qed.

(** C9. An entry may carry a partition key with a value that does not
    convert and still resolve: the key is not read when one before it in
    the priority order is present. *)
Lemma shadowed_key_is_not_read :
  py_int JNull = Raise TypeError /\
  resolve_partitions
    (JList [JDict [("partition_num", JInt 3); ("page", JNull)]]) = Ok [3] /\
  (poll ref_str
     (ready_network (JList [JDict [("partition_num", JInt 3); ("page", JNull)]]))
     (JStr "S1") start).1 = Val [3].
Proof. repeat split; vm_compute; reflexivity. Qed.

(** C10. A row that completes fills 70 columns, not 69. *)
Lemma completed_row_fills_70_columns :
  (flatten_row ref_str ref_dumps order_O1 (JDict []) start).1 = Val tt /\
  exists cols,
    unpack (outputs (flatten_row ref_str ref_dumps order_O1 (JDict []) start).2)
      = Ok cols /\
    Forall (fun c => length c = 1%nat) cols /\
    length cols = 70%nat /\ length cols <> 69%nat.
Proof.
  split; [vm_compute; reflexivity|]. eexists.
  split; [vm_compute; reflexivity|].
  split; [repeat constructor|]. by split.
Qed.

(** ** Instances of the further properties *)

Lemma auth_token_source_witness :
  auth ref_str bearer_config silent_network start = (Val (JStr "T0"), start) /\
  auth ref_str hard_coded pending_network start =
    (Val (JStr "T"), logged start [LogInfo LoggingIn; Http PostToken]).
Proof.
  split.
  - apply (proj1 (auth_token_source ref_str bearer_config silent_network start)).
    + intros H. vm_compute in H. discriminate.
    + exists "T0". reflexivity.
  - apply (proj2 (auth_token_source ref_str hard_coded pending_network start)
             eq_refl [("access_token", JStr "T")] (JStr "T")).
    + reflexivity.
    + reflexivity.
    + reflexivity.
    + exists "T". reflexivity.
Defined.

Lemma auth_failure_stops_run_witness :
  main ref_str ref_dumps hard_coded silent_network start =
    (Ret empty_table,
     logged start [LogInfo LoggingIn; Http PostToken;
                   LogError (AuthError RequestException)]) /\
  main ref_str ref_dumps hard_coded empty_answers_network start =
    (Ret empty_table,
     logged start [LogInfo LoggingIn; Http PostToken;
                   LogError AuthFailedNoToken]).
Proof.
  split.
  - apply (proj1 (auth_failure_stops_run ref_str ref_dumps hard_coded
                    silent_network start eq_refl eq_refl)).
    reflexivity.
  - apply (proj2 (auth_failure_stops_run ref_str ref_dumps hard_coded
                    empty_answers_network start eq_refl eq_refl)
             [("access_token", JStr "")]).
    + reflexivity.
    + reflexivity.
Defined.

Lemma falsy_search_id_is_missing_witness :
  start_search ref_str hard_coded empty_answers_network start =
    (Ret empty_table,
     logged start
       [Http (PostSearch
                (search_body hard_coded
                   [420002; 474974; 416569; 480359; 474902; 433336]));
        LogError NoSearchId]).
Proof.
  apply (falsy_search_id_is_missing ref_str hard_coded empty_answers_network
           start [420002; 474974; 416569; 480359; 474902; 433336]
           [("search_id", JInt 0)]).
  - reflexivity.
  - vm_compute. reflexivity.
  - discriminate.
  - reflexivity.
  - reflexivity.
Defined.

Lemma fetch_all_collects_witness :
  fetch_all ref_str (ready_network example_partition_info) (JStr "S1")
    [0; 2; 5] start =
    (Val (concat (map (fun _ : Z => [order_O1]) [0; 2; 5])),
     logged start
       (page_requests (JStr "S1") [0; 2; 5] ++
        [LogInfo (Fetched
           (length (concat (map (fun _ : Z => [order_O1]) [0; 2; 5]))))])) /\
  page_data (Ok (JDict [])) = Ok [].
Proof.
  apply (fetch_all_collects ref_str (ready_network example_partition_info)
           (JStr "S1") (fun _ => [order_O1]) [0; 2; 5] start).
  - intros p _. reflexivity.
  - eexists. reflexivity.
Defined.

Lemma fetch_failure_aborts_witness :
  fetch_all ref_str (null_page_network example_partition_info) (JStr "S1")
    ([0] ++ 2 :: [5]) start =
    (Ret empty_table,
     logged start
       (page_requests (JStr "S1") [0] ++
        [Http (GetPage (JStr "S1") 2);
         LogError (PartitionFetchError TypeError)])).
Proof.
  apply (fetch_failure_aborts ref_str
           (null_page_network example_partition_info) (JStr "S1")
           (fun _ => [order_O1]) [0] [5] 2 start TypeError).
  - reflexivity.
  - intros q Hq.
    apply elem_of_cons in Hq as [->|Hq]; [reflexivity|by apply elem_of_nil in Hq].
  - reflexivity.
Defined.

Lemma failed_poll_is_not_retried_witness :
  after_search ref_str ref_dumps silent_network (JStr "S1") start =
    (Ret empty_table,
     logged start
       (polls (JStr "S1") 0 ++
        [Http (GetPoll (JStr "S1"));
         LogError (PollingError RequestException)])).
Proof.
  apply (failed_poll_is_not_retried ref_str ref_dumps silent_network
           (JStr "S1") start 0%nat RequestException).
  - exists "S1". reflexivity.
  - reflexivity.
  - lia.
  - intros i Hi. lia.
  - left. reflexivity.
Defined.

Lemma resolved_partitions_invariant_witness :
  [0; 2; 5] <> [] /\ Forall (fun n => 0 <= n) [0; 2; 5] /\
  StronglySorted Z.lt [0; 2; 5].
Proof.
  apply (resolved_partitions_invariant example_partition_info [0; 2; 5]).
  vm_compute. reflexivity.
Defined.

Lemma flatten_row_cells_witness :
  trace (flatten_row ref_str ref_dumps order_O1 (JDict []) start).2
    = trace start /\
  (forall i col cell,
     row_cells ref_str ref_dumps order_O1 (JDict []) !! i = Some (col, cell) ->
     variable_names !! i = Some col /\
     exists s c, cell = Ok s /\ outputs start !! col = Some c /\
       outputs (flatten_row ref_str ref_dumps order_O1 (JDict []) start).2
         !! col = Some (c ++ [s])) /\
  (exists s c, _g ref_str (JDict []) ["plan_code"; "cd_barcode"] = Ok s /\
     outputs start !! "plan_code_barcode" = Some c /\
     outputs (flatten_row ref_str ref_dumps order_O1 (JDict []) start).2
       !! "plan_code_barcode" = Some (c ++ [s])) /\
  (exists s c,
     _g ref_str order_O1 ["purchase_location_source"; "city_name"] = Ok s /\
     outputs start !! "purchase_city" = Some c /\
     outputs (flatten_row ref_str ref_dumps order_O1 (JDict []) start).2
       !! "purchase_city" = Some (c ++ [s])).
Proof.
  apply (flatten_row_cells ref_str ref_dumps order_O1 (JDict []) start
           (flatten_row ref_str ref_dumps order_O1 (JDict []) start).2).
  - apply empty_outputs_has_columns.
  - apply pair_of_parts; [vm_compute; reflexivity|reflexivity].
Defined.

Lemma itemless_order_row_witness :
  order_items (JDict [("id", JStr "O3"); ("order_items", JList [])])
    = Ok [JDict []] /\
  forall i col cell,
    (31 <= i)%nat ->
    row_cells ref_str ref_dumps
      (JDict [("id", JStr "O3"); ("order_items", JList [])]) (JDict []) !! i
      = Some (col, cell) ->
    cell = Ok "".
Proof.
  apply (itemless_order_row ref_str ref_dumps
           [("id", JStr "O3"); ("order_items", JList [])]).
  reflexivity.
Defined.

Lemma flatten_only_appends_witness :
  trace (flatten ref_str ref_dumps [order_O1; JInt 5] start).2 = trace start /\
  (forall r, Exc AttributeError <> @Ret unit r) /\
  forall name c, outputs start !! name = Some c ->
    exists c',
      outputs (flatten ref_str ref_dumps [order_O1; JInt 5] start).2 !! name
        = Some c' /\
      c `prefix_of` c'.
Proof.
  apply (flatten_only_appends ref_str ref_dumps [order_O1; JInt 5] start).
  apply pair_of_parts; [vm_compute; reflexivity|reflexivity].
Defined.

Lemma flatten_concat_witness :
  flatten ref_str ref_dumps ([order_O1] ++ [order_two_items]) start =
    flatten ref_str ref_dumps [order_two_items]
      (flatten ref_str ref_dumps [order_O1] start).2.
Proof.
  apply (proj1 (flatten_concat ref_str ref_dumps [order_O1] [order_two_items]
                  start (flatten ref_str ref_dumps [order_O1] start).2)).
  apply pair_of_parts; [vm_compute; reflexivity|reflexivity].
Defined.

Lemma unpack_in_schema_order_witness :
  exists cols, unpack empty_outputs = Ok cols /\ length cols = 70%nat /\
    forall i name, variable_names !! i = Some name ->
      cols !! i = empty_outputs !! name.
Proof.
  apply (proj1 (unpack_in_schema_order empty_outputs)).
  apply empty_outputs_has_columns.
Defined.

Lemma returned_table_is_rectangular_witness :
  exists cols tr n,
    call_main ref_str ref_dumps hard_coded
      (ready_network example_partition_info) = (Ok cols, tr) /\
    length cols = 70%nat /\ Forall (fun c => length c = n) cols.
Proof.
  apply (returned_table_is_rectangular ref_str ref_dumps).
  - intros v. exists (str_text v). reflexivity.
  - intros v. exists (dumps_text v). reflexivity.
Defined.

Lemma successful_run_rows_witness :
  exists cols,
    call_main ref_str ref_dumps hard_coded
      (ready_network example_partition_info) =
      (Ok cols,
       [LogInfo LoggingIn; Http PostToken;
        Http (PostSearch
                (search_body hard_coded
                   [420002; 474974; 416569; 480359; 474902; 433336]));
        LogInfo (SearchId (JStr "S1"))] ++
       polls (JStr "S1") 2 ++ [Http (GetPoll (JStr "S1"))] ++
       page_requests (JStr "S1") [0; 2; 5] ++
       [LogInfo (Fetched
          (length (concat (map (fun _ : Z => [order_O1]) [0; 2; 5]))))]) /\
    length cols = 70%nat /\
    Forall (fun c => length c =
              row_count (concat (map (fun _ : Z => [order_O1]) [0; 2; 5])))
      cols.
Proof.
  apply (successful_run_rows ref_str ref_dumps hard_coded
           (ready_network example_partition_info)
           [("access_token", JStr "T")] [("search_id", JStr "S1")]
           (JStr "T") (JStr "S1")
           (JDict [("partition_info", example_partition_info)])
           example_partition_info
           [420002; 474974; 416569; 480359; 474902; 433336] [0; 2; 5]
           2%nat (fun _ => [order_O1])).
  - intros v. exists (str_text v). reflexivity.
  - intros v. exists (dumps_text v). reflexivity.
  - reflexivity.
  - reflexivity.
  - reflexivity.
  - reflexivity.
  - vm_compute. reflexivity.
  - discriminate.
  - reflexivity.
  - reflexivity.
  - reflexivity.
  - lia.
  - intros i Hi. exists (JDict []), JNull.
    destruct i as [|[|i]]; [repeat split..|lia].
  - reflexivity.
  - reflexivity.
  - reflexivity.
  - vm_compute. reflexivity.
  - intros p _. reflexivity.
  - repeat constructor.
Defined.

Lemma plan_ids_of_numerals_witness :
  parse_plan_ids (String.concat "," ["12"; "007"; "12"]) =
    Ok (map decimal_value ["12"; "007"; "12"]).
Proof.
  apply (plan_ids_of_numerals ["12"; "007"; "12"]).
  repeat (apply Forall_cons_2; [vm_compute; reflexivity|]). apply Forall_nil_2.
Defined.
